(** * Calendar-Agent: intent resolution, dispatch and backend helpers

    A shallow embedding of the decision logic of the agent
    ([main.py], [tools.py], [models.py]) together with the properties
    its specification states about it.

    Conventions.
    - A Python [str] is a [string], the sequence of its bytes; the
      character operations ([lower], [isspace]) act on the ASCII range,
      which covers every keyword table of the program.
    - A [datetime] is an integer count of microseconds on the proleptic
      Gregorian time line (the resolution of Python's [datetime]); all
      datetimes of one computation are read in one zone.
    - A [dict] with string keys is a [gmap string _].
    - Calls to collaborators (language model, console, mailbox backend)
      are answered by a [world] record and recorded in a trace.
    - The records of [models.py] carry their fields; the validation
      pydantic runs on construction is not part of the model. *)

From Stdlib Require Import ZArith String Ascii List Bool Lia DecimalString.
From stdpp Require Import base option list gmap strings.

Import ListNotations.
Set Warnings "-register-all".
Local Open Scope string_scope.
Local Open Scope Z_scope.

(* ===================================================================== *)
(** * Python string operations used by the program *)
(* ===================================================================== *)

Module PyStr.

(** [str.isspace] on one ASCII character: tab to carriage return, the
    four separators 28 to 31, and the space. *)
Definition isspace (c : ascii) : bool :=
  let n := N_of_ascii c in
  ((9 <=? n)%N && (n <=? 13)%N) || ((28 <=? n)%N && (n <=? 32)%N).

Fixpoint all_space (s : string) : bool :=
  match s with
  | EmptyString => true
  | String c s' => isspace c && all_space s'
  end.

(** [str.lower] on one character: [A]..[Z] are mapped to [a]..[z]. *)
Definition lower_char (c : ascii) : ascii :=
  let n := N_of_ascii c in
  if ((65 <=? n)%N && (n <=? 90)%N)%bool then ascii_of_N (n + 32) else c.

Fixpoint lower (s : string) : string :=
  match s with
  | EmptyString => EmptyString
  | String c s' => String (lower_char c) (lower s')
  end.

(** [s.startswith(p)]. *)
Definition startswith (p s : string) : bool := String.prefix p s.

(** [s[n:]] for [n >= 0]. *)
Fixpoint drop (n : nat) (s : string) : string :=
  match n, s with
  | O, _ => s
  | S _, EmptyString => EmptyString
  | S n', String _ s' => drop n' s'
  end.

(** [s[:n]] for [n >= 0]. *)
Fixpoint take (n : nat) (s : string) : string :=
  match n, s with
  | O, _ => EmptyString
  | S _, EmptyString => EmptyString
  | S n', String c s' => String c (take n' s')
  end.

(** [s[:-n]]: everything but the last [n] characters. *)
Definition drop_end (n : nat) (s : string) : string :=
  take (String.length s - n) s.

(** [s.endswith(p)]. *)
Definition endswith (p s : string) : bool :=
  (String.length p <=? String.length s)%nat
  && String.eqb (drop (String.length s - String.length p) s) p.

(** [p in s]: [p] occurs in [s] as a contiguous substring. *)
Fixpoint contains (p s : string) : bool :=
  startswith p s
  || match s with
     | EmptyString => false
     | String _ s' => contains p s'
     end.

(** [s.lstrip()], [s.rstrip()] and [s.strip()]. *)
Fixpoint lstrip (s : string) : string :=
  match s with
  | EmptyString => EmptyString
  | String c s' => if isspace c then lstrip s' else s
  end.

Fixpoint rstrip (s : string) : string :=
  match s with
  | EmptyString => EmptyString
  | String c s' =>
      match rstrip s' with
      | EmptyString => if isspace c then EmptyString else String c EmptyString
      | r => String c r
      end
  end.

Definition strip (s : string) : string := rstrip (lstrip s).

(** [sep.join(l)]. *)
Fixpoint join (sep : string) (l : list string) : string :=
  match l with
  | [] => EmptyString
  | [x] => x
  | x :: l' => x ++ sep ++ join sep l'
  end.

(** [any(p in s for p in patterns)]. *)
Definition any_in (patterns : list string) (s : string) : bool :=
  existsb (fun p => contains p s) patterns.

(** First and last character of a string. *)
Definition first_char (s : string) : option ascii :=
  match s with
  | EmptyString => None
  | String c _ => Some c
  end.

Fixpoint last_char (s : string) : option ascii :=
  match s with
  | EmptyString => None
  | String c EmptyString => Some c
  | String _ s' => last_char s'
  end.

(** Decimal rendering of an integer, as [str(n)] gives it. *)
Definition of_Z (n : Z) : string := NilZero.string_of_int (Z.to_int n).

(** Decimal rendering padded with zeros to [w] digits ([%02d], [%04d]). *)
Fixpoint zeros (n : nat) : string :=
  match n with
  | O => EmptyString
  | S n' => String "0" (zeros n')
  end.

Definition pad (w : nat) (n : Z) : string :=
  let d := of_Z n in
  zeros (w - String.length d) ++ d.

End PyStr.

(* ===================================================================== *)
(** * Python's [datetime], as far as the program uses it *)
(* ===================================================================== *)

Module Datetime.

(** Microseconds since 1970-01-01 00:00:00. *)
Definition datetime := Z.

Definition usec_per_second : Z := 1000000.
Definition usec_per_minute : Z := 60 * usec_per_second.
Definition usec_per_day : Z := 86400 * usec_per_second.

(** [timedelta(minutes=m)] and [timedelta(days=d)]. *)
Definition timedelta_minutes (m : Z) : Z := m * usec_per_minute.
Definition timedelta_days (d : Z) : Z := d * usec_per_day.

(** Day number of a civil date (proleptic Gregorian calendar). *)
Definition days_from_civil (y m d : Z) : Z :=
  let y' := if m <=? 2 then y - 1 else y in
  let era := y' / 400 in
  let yoe := y' - era * 400 in
  let mp := if m <=? 2 then m + 9 else m - 3 in
  let doy := (153 * mp + 2) / 5 + d - 1 in
  let doe := yoe * 365 + yoe / 4 - yoe / 100 + doy in
  era * 146097 + doe - 719468.

(** Civil date of a day number. *)
Definition civil_from_days (z : Z) : Z * Z * Z :=
  let z' := z + 719468 in
  let era := z' / 146097 in
  let doe := z' - era * 146097 in
  let yoe := (doe - doe / 1460 + doe / 36524 - doe / 146096) / 365 in
  let doy := doe - (365 * yoe + yoe / 4 - yoe / 100) in
  let mp := (5 * doy + 2) / 153 in
  let d := doy - (153 * mp + 2) / 5 + 1 in
  let m := if mp <? 10 then mp + 3 else mp - 9 in
  let y := yoe + era * 400 in
  (if m <=? 2 then y + 1 else y, m, d).

(** [datetime(y, m, d, hh, mm, ss)]. *)
Definition make (y m d hh mm ss : Z) : datetime :=
  days_from_civil y m d * usec_per_day
  + ((hh * 60 + mm) * 60 + ss) * usec_per_second.

Definition hour (t : datetime) : Z := (t mod usec_per_day) / (3600 * usec_per_second).
Definition minute (t : datetime) : Z := ((t mod usec_per_day) / usec_per_minute) mod 60.
Definition second (t : datetime) : Z := ((t mod usec_per_day) / usec_per_second) mod 60.

(** [t.strftime("%Y-%m-%d")]. *)
Definition strftime_date (t : datetime) : string :=
  let '(y, m, d) := civil_from_days (t / usec_per_day) in
  PyStr.pad 4 y ++ "-" ++ PyStr.pad 2 m ++ "-" ++ PyStr.pad 2 d.

(** [t.strftime("%Y-%m-%d %I:%M %p")]: twelve-hour clock with AM/PM. *)
Definition strftime_slot (t : datetime) : string :=
  let h := hour t in
  let h12 := if h mod 12 =? 0 then 12 else h mod 12 in
  strftime_date t ++ " " ++ PyStr.pad 2 h12 ++ ":" ++ PyStr.pad 2 (minute t)
  ++ " " ++ (if h <? 12 then "AM" else "PM").

(** [t.strftime("%Y-%m-%d %H:%M")]. *)
Definition strftime_minute (t : datetime) : string :=
  strftime_date t ++ " " ++ PyStr.pad 2 (hour t) ++ ":" ++ PyStr.pad 2 (minute t).

End Datetime.

(* ===================================================================== *)
(** * Values of the model's JSON answer and Python truthiness *)
(* ===================================================================== *)

Module Py.

(** A parameter value as [json.loads] delivers it (numbers are integers
    in every field the program reads). *)
Inductive value :=
| VNone
| VBool (b : bool)
| VInt (n : Z)
| VStr (s : string)
| VList (l : list value).

(** Truth value of an object, as [if not x] tests it. *)
Definition truthy (v : value) : bool :=
  match v with
  | VNone => false
  | VBool b => b
  | VInt n => negb (n =? 0)
  | VStr s => negb (String.eqb s "")
  | VList l => match l with [] => false | _ => true end
  end.

(** [d.get(k)] and [d.get(k, default)]. *)
Definition get (d : gmap string value) (k : string) : value :=
  default VNone (d !! k).

Definition get_default (d : gmap string value) (k : string) (dflt : value) : value :=
  default dflt (d !! k).

(** The exceptions the program tells apart, and any other one with the
    name of its class; [str(e)] is the message. *)
Inductive exn :=
| ValueError (msg : string)
| BadRequestError (msg : string)
| OtherException (class_name msg : string).

Definition exn_str (e : exn) : string :=
  match e with
  | ValueError m | BadRequestError m | OtherException _ m => m
  end.

(** [str(v)] as an f-string renders it; a list shows its items' [repr]. *)
Definition repr_atom (v : value) : string :=
  match v with
  | VNone => "None"
  | VBool true => "True"
  | VBool false => "False"
  | VInt n => PyStr.of_Z n
  | VStr s => "'" ++ s ++ "'"
  | VList _ => "[...]"
  end.

Definition str (v : value) : string :=
  match v with
  | VStr s => s
  | VList l => "[" ++ PyStr.join ", " (map repr_atom l) ++ "]"
  | _ => repr_atom v
  end.

(** [len(v)]: defined on strings and lists, a [TypeError] otherwise. *)
Definition len (v : value) : exn + Z :=
  match v with
  | VStr s => inr (Z.of_nat (String.length s))
  | VList l => inr (Z.of_nat (List.length l))
  | _ => inl (OtherException "TypeError" "object has no len()")
  end.

End Py.

(* ===================================================================== *)
(** * models.py *)
(* ===================================================================== *)

Module Models.

Import Datetime.

Record Email := {
  id : string;
  subject : string;
  sender : string;
  recipient : string;
  content : string;
  timestamp : datetime;
  is_read : bool;
  attachments : list string
}.

Record EmailSummary := {
  total_emails : Z;
  unread_count : Z;
  recent_emails : list Email;
  summary : string
}.

Record Message := {
  msg_role : string;
  msg_content : string;
  msg_timestamp : datetime
}.

(** The class body of [Message] runs once, when the module is loaded:
    [timestamp: datetime = datetime.now()] evaluates [datetime.now()] at
    that moment and stores the value as the field's default. *)
Record Message_class := { timestamp_default : datetime }.

Definition define_Message (load_time : datetime) : Message_class :=
  {| timestamp_default := load_time |}.

(** [Message(role=..., content=...)], with [timestamp=...] optional. *)
Definition new_Message (cls : Message_class) (role content : string)
  (ts : option datetime) : Message :=
  {| msg_role := role;
     msg_content := content;
     msg_timestamp := default (timestamp_default cls) ts |}.

Record ConversationHistory := {
  messages : list Message;
  max_history : Z
}.

(** [ConversationHistory()]: no messages, [max_history = 10]. *)
Definition new_ConversationHistory : ConversationHistory :=
  {| messages := []; max_history := 10 |}.

(** [l.pop(0)] on a non-empty list: the list without its first item. *)
Definition pop0 {A : Type} (l : list A) : list A := tl l.

(** [ConversationHistory.add_message]. *)
Definition add_message (cls : Message_class) (self : ConversationHistory)
  (role content : string) : ConversationHistory :=
  let appended := (messages self ++ [new_Message cls role content None])%list in
  {| messages :=
       if Z.of_nat (List.length appended) >? max_history self
       then pop0 appended
       else appended;
     max_history := max_history self |}.

(** A call of [add_message] together with the wall-clock time at which
    it is made. The method never reads the clock, so [call_time] does
    not reach [add_message]. *)
Record add_call := {
  call_time : datetime;
  call_role : string;
  call_content : string
}.

Definition add_messages (cls : Message_class) (self : ConversationHistory)
  (calls : list add_call) : ConversationHistory :=
  fold_left (fun h c => add_message cls h (call_role c) (call_content c)) calls self.

End Models.

(* ===================================================================== *)
(** * Collaborators: answers of the outside world and the trace of calls *)
(* ===================================================================== *)

Module Eff.

Import Py.

(** A message as the mailbox API's [messages().get] returns it. *)
Record gmail_message := {
  headers : list (string * string);  (* payload.headers as (name, value) *)
  parts : option (list (option string)); (* payload.parts, each part's body.data *)
  body_data : option string;         (* payload.body.data *)
  internalDate : Z;                  (* milliseconds since the epoch *)
  labelIds : list string
}.

(** What the collaborators answer. *)
Record world := {
  (* client.chat.completions.create(...).choices[0].message.content *)
  chat_completion : string -> exn + string;
  (* Prompt.ask(question, choices=["y", "n"]) *)
  prompt_ask : string -> string;
  (* service.users().messages().list(maxResults, q).execute().get('messages', []) *)
  gmail_list : value -> string -> exn + list string;
  (* service.users().messages().get(id).execute() *)
  gmail_get : string -> exn + gmail_message;
  (* _create_message followed by service.users().messages().send(...).execute() *)
  gmail_send : value -> value -> value -> exn + unit
}.

(** The calls the program makes, in the order it makes them. *)
Inductive event :=
| ChatCompletion (prompt : string)
| ConsolePrint (text : string)
| PromptAsk (question : string)
| GmailList (max_results : value) (query : string)
| GmailGet (message_id : string)
| GmailCreateEmail (to subject body : value).

(** A computation that may raise and that extends the trace. *)
Definition M (A : Type) : Type := list event -> (exn + A) * list event.

Definition ret {A : Type} (a : A) : M A := fun tr => (inr a, tr).

Definition raise {A : Type} (e : exn) : M A := fun tr => (inl e, tr).

Definition bind {A B : Type} (m : M A) (k : A -> M B) : M B :=
  fun tr =>
    match m tr with
    | (inl e, tr') => (inl e, tr')
    | (inr a, tr') => k a tr'
    end.

(** [try: m except Exception as e: h e]. *)
Definition catch {A : Type} (m : M A) (h : exn -> M A) : M A :=
  fun tr =>
    match m tr with
    | (inl e, tr') => h e tr'
    | (inr a, tr') => (inr a, tr')
    end.

Definition emit (ev : event) : M unit := fun tr => (inr tt, (tr ++ [ev])%list).

Definition lift {A : Type} (r : exn + A) : M A := fun tr => (r, tr).

Definition run {A : Type} (m : M A) : (exn + A) * list event := m [].

Notation "x <- m ;; k" := (bind m (fun x => k))
  (at level 100, m at next level, right associativity).
Notation "m ;;; k" := (bind m (fun _ => k))
  (at level 100, right associativity).

Fixpoint mapM {A B : Type} (f : A -> M B) (l : list A) : M (list B) :=
  match l with
  | [] => ret []
  | a :: l' => b <- f a ;; bs <- mapM f l' ;; ret (b :: bs)
  end.

End Eff.

(* ===================================================================== *)
(** * tools.py *)
(* ===================================================================== *)

Module GmailTools.

Import Py Eff Models.

(** [next(h['value'] for h in headers if h['name'] == name)]. *)
Definition header (name : string) (hs : list (string * string)) : exn + string :=
  match find (fun h => String.eqb (fst h) name) hs with
  | Some h => inr (snd h)
  | None => inl (OtherException "StopIteration" "")
  end.

(** The body text: the first part's data when the payload has parts,
    the payload's own body data otherwise. *)
Definition message_content (msg : gmail_message) : exn + string :=
  match parts msg with
  | Some ps =>
      match ps with
      | Some d :: _ => inr d
      | None :: _ => inl (OtherException "KeyError" "'data'")
      | [] => inl (OtherException "IndexError" "list index out of range")
      end
  | None =>
      match body_data msg with
      | Some d => inr d
      | None => inl (OtherException "KeyError" "'data'")
      end
  end.

(** ['UNREAD' in msg['labelIds']]. *)
Definition has_unread_label (msg : gmail_message) : bool :=
  existsb (String.eqb "UNREAD") (labelIds msg).

(** [datetime.fromtimestamp(int(msg['internalDate'])/1000)]. *)
Definition message_time (msg : gmail_message) : Datetime.datetime :=
  internalDate msg * 1000.

(** The body of the loop of [get_all_emails] for one listed id. *)
Definition fetch_listed (w : world) (message_id : string) : M Email :=
  emit (GmailGet message_id) ;;;
  msg <- lift (gmail_get w message_id) ;;
  subject <- lift (header "Subject" (headers msg)) ;;
  sender <- lift (header "From" (headers msg)) ;;
  recipient <- lift (header "To" (headers msg)) ;;
  content <- lift (message_content msg) ;;
  ret {| id := message_id;
         subject := subject;
         sender := sender;
         recipient := recipient;
         content := content;
         timestamp := message_time msg;
         is_read := has_unread_label msg;
         attachments := [] |}.

(** [GmailTools.get_all_emails]; an exception is logged and re-raised. *)
Definition get_all_emails (w : world) (max_results : value) (unread_only : bool)
  : M (list Email) :=
  catch
    (let query := if unread_only then "is:unread" else "" in
     emit (GmailList max_results query) ;;;
     listed <- lift (gmail_list w max_results query) ;;
     mapM (fetch_listed w) listed)
    (fun e => raise e).

(** [GmailTools.get_email]; an exception is logged and [None] returned. *)
Definition get_email (w : world) (email_id : string) : M (option Email) :=
  catch
    (emit (GmailGet email_id) ;;;
     msg <- lift (gmail_get w email_id) ;;
     subject <- lift (header "Subject" (headers msg)) ;;
     sender <- lift (header "From" (headers msg)) ;;
     recipient <- lift (header "To" (headers msg)) ;;
     content <- lift (message_content msg) ;;
     ret (Some {| id := email_id;
                  subject := subject;
                  sender := sender;
                  recipient := recipient;
                  content := content;
                  timestamp := message_time msg;
                  is_read := negb (has_unread_label msg);
                  attachments := [] |}))
    (fun _ => ret None).

(** [GmailTools.create_email]: [True] when the message was handed to the
    backend, [False] when building or sending it raised. *)
Definition create_email (w : world) (to subject body : value) : M bool :=
  emit (GmailCreateEmail to subject body) ;;;
  catch
    (lift (gmail_send w to subject body) ;;; ret true)
    (fun _ => ret false).

End GmailTools.

Module CalendarTools.

Import Datetime.

(** An existing event with its start and end as [datetime.fromisoformat]
    reads them. *)
Record Event := { event_start : datetime; event_end : datetime }.

(** A free slot before it is rendered as text. *)
Record Slot := { slot_start : datetime; slot_end : datetime }.

(** The dictionary [{'start': ..., 'end': ...}] appended for a slot. *)
Record SlotText := { start_text : string; end_text : string }.

Definition render_slot (s : Slot) : SlotText :=
  {| start_text := strftime_slot (slot_start s);
     end_text := strftime_slot (slot_end s) |}.

(** The test made before an event (against the event's start) and after
    the last event (against the end of the range): the gap from the
    cursor, [(limit - current_time).total_seconds()], is at least
    [duration_minutes * 60], and the candidate slot ends by [limit]. *)
Definition slot_before (current_time limit : datetime) (duration_minutes : Z)
  : list Slot :=
  if duration_minutes * 60 * usec_per_second <=? limit - current_time then
    let slot_end := current_time + timedelta_minutes duration_minutes in
    if slot_end <=? limit
    then [ {| slot_start := current_time; slot_end := slot_end |} ]
    else []
  else [].

(** One iteration of [for event in events]: the state is the cursor
    [current_time] and the list [available_slots]. *)
Definition visit_event (duration_minutes : Z) (st : datetime * list Slot)
  (event : Event) : datetime * list Slot :=
  let '(current_time, available_slots) := st in
  ((* current_time = event_end *) event_end event,
   (available_slots
      ++ slot_before current_time (event_start event) duration_minutes)%list).

(** The cursor and the slots after the loop over [events]. *)
Definition scan_events (start_time : datetime) (events : list Event)
  (duration_minutes : Z) : datetime * list Slot :=
  fold_left (visit_event duration_minutes) events (start_time, []).

(** The slots of [check_availability] as datetimes: [events] is the
    backend's answer after the sort by start, [start_time] and
    [end_time] are the parsed bounds of the range. *)
Definition free_slots (start_time end_time : datetime) (events : list Event)
  (duration_minutes : Z) : list Slot :=
  let '(current_time, available_slots) :=
    scan_events start_time events duration_minutes in
  (available_slots ++ slot_before current_time end_time duration_minutes)%list.

(** [CalendarTools.check_availability]: every slot is appended as the
    pair of its rendered start and end. *)
Definition check_availability (start_time end_time : datetime)
  (events : list Event) (duration_minutes : Z) : list SlotText :=
  map render_slot (free_slots start_time end_time events duration_minutes).

End CalendarTools.

(* ===================================================================== *)
(** * main.py: the agent *)
(* ===================================================================== *)

Module CalendarAgent.

Import Py Eff Models Datetime.

(** [chr(10)] and the double quote character. *)
Definition nl : string := String (ascii_of_nat 10) EmptyString.
Definition dq : string := String (ascii_of_nat 34) EmptyString.

(** ** The language model *)

(** [_get_ai_response]: the provider's too-large condition becomes a
    [ValueError] with a hint, any other failure is raised unchanged. *)
Definition _get_ai_response (w : world) (user_input : string) : M string :=
  emit (ChatCompletion user_input) ;;;
  match chat_completion w user_input with
  | inr text => ret text
  | inl (BadRequestError msg) =>
      if PyStr.contains "context_length_exceeded" msg
      then raise (ValueError "The content is too long for the AI model to process. Please try with fewer emails or shorter content.")
      else raise (BadRequestError msg)
  | inl e => raise e
  end.

(** [_truncate_email_content] with its default [max_length = 1000]. *)
Definition _truncate_email_content (text : string) : string :=
  if (String.length text <=? 1000)%nat then text
  else PyStr.take 1000 text ++ "...".

(** ** Intent classification *)

Record category_info := {
  indicators : list string;
  entities : list string;
  required : list string
}.

Definition gmail_intent_categories : list (string * category_info) :=
  [ ("summarize",
     {| indicators :=
          [ "summarize"; "summarise"; "summary"; "summaries"; "summarization";
            "summarisation"; "overview"; "review"; "recap"; "recapitulate";
            "what's in"; "what is in"; "whats in"; "what are my"; "what are the";
            "unread"; "inbox"; "emails"; "messages" ];
        entities := [ "count"; "unread_only"; "time_period" ];
        required := [] |});
    ("send",
     {| indicators :=
          [ "send"; "write"; "compose"; "draft"; "create"; "new email";
            "new message"; "write to"; "email to"; "mail to"; "message to";
            "forward"; "reply"; "respond"; "response" ];
        entities := [ "to"; "subject"; "content"; "cc"; "bcc" ];
        required := [ "to"; "subject"; "content" ] |});
    ("retrieve",
     {| indicators :=
          [ "get"; "retrieve"; "fetch"; "find"; "search"; "look up";
            "show me"; "display"; "view"; "read"; "open"; "access";
            "specific"; "particular"; "certain"; "this email" ];
        entities := [ "email_id"; "search_query"; "time_period" ];
        required := [ "email_id" ] |}) ].

Definition calendar_intent_categories : list (string * category_info) :=
  [ ("create",
     {| indicators :=
          [ "create"; "schedule"; "add"; "book"; "set up"; "setup"; "arrange"; "plan" ];
        entities := [ "event_title"; "start_date"; "duration"; "attendees"; "location" ];
        required := [ "event_title"; "start_date" ] |});
    ("list",
     {| indicators :=
          [ "list"; "show"; "display"; "view"; "check"; "retrieve"; "get"; "fetch" ];
        entities := [ "start_date"; "end_date"; "count" ];
        required := [] |});
    ("availability",
     {| indicators := [ "available"; "availability"; "free"; "open"; "when am i free" ];
        entities := [ "start_date"; "end_date"; "duration" ];
        required := [ "start_date"; "end_date"; "duration" ] |}) ].

(** [any(indicator in intent.lower() for indicator in info['indicators'])]. *)
Definition indicator_hit (info : category_info) (intent : string) : bool :=
  PyStr.any_in (indicators info) (PyStr.lower intent).

(** [for entity in info['entities']: if entity in params:
    entities[entity] = params[entity]]. *)
Definition extract_entities (names : list string)
  (params found : gmap string value) : gmap string value :=
  fold_left
    (fun acc entity =>
       match params !! entity with
       | Some v => <[entity := v]> acc
       | None => acc
       end)
    names found.

(** [[req for req in info['required'] if req not in entities]]. *)
Definition missing_entities (info : category_info)
  (found : gmap string value) : list string :=
  List.filter
    (fun req => match found !! req with Some _ => false | None => true end)
    (required info).

(** The loop over the categories in declaration order, common to both
    classifiers; [None] stands for the pair [(None, None)]. *)
Fixpoint detect_intent (categories : list (string * category_info))
  (intent : string) (params found : gmap string value)
  : option (string * gmap string value) :=
  match categories with
  | [] => None
  | (category, info) :: rest =>
      if indicator_hit info intent then
        let found := extract_entities (entities info) params found in
        match missing_entities info found with
        | [] => Some (category, found)
        | _ :: _ => None
        end
      else detect_intent rest intent params found
  end.

Definition _detect_gmail_intent (intent : string) (params : gmap string value)
  : option (string * gmap string value) :=
  detect_intent gmail_intent_categories intent params ∅.

Definition _detect_calendar_intent (intent : string) (params : gmap string value)
  : option (string * gmap string value) :=
  detect_intent calendar_intent_categories intent params ∅.

(** ** Email operations *)

(** The copy of an email made for the prompt, its content truncated. *)
Definition truncated_copy (email : Email) : Email :=
  {| id := id email;
     subject := subject email;
     sender := sender email;
     recipient := recipient email;
     content := _truncate_email_content (content email);
     timestamp := timestamp email;
     is_read := is_read email;
     attachments := [] |}.

Definition summary_prompt (emails : list Email) : string :=
  let email_texts :=
    PyStr.join (nl ++ nl)
      (map (fun email =>
              "Subject: " ++ subject email ++ nl ++ "From: " ++ sender email
              ++ nl ++ "Content: " ++ content email)
           (map truncated_copy emails)) in
  "Please provide a concise summary (less than 500 words) of these "
  ++ PyStr.of_Z (Z.of_nat (List.length emails)) ++ " emails:" ++ nl ++ nl
  ++ email_texts ++ nl ++ nl
  ++ "Focus on the key points and most important information.".

(** [summarize_emails]: every exception is logged and re-raised. *)
Definition summarize_emails (w : world) (count : value) : M EmailSummary :=
  catch
    (emails <- GmailTools.get_all_emails w count true ;;
     match emails with
     | [] => raise (ValueError "No emails were retrieved. Please check your Gmail API access.")
     | _ :: _ =>
         summary <- _get_ai_response w (summary_prompt emails) ;;
         ret {| total_emails := Z.of_nat (List.length emails);
                unread_count :=
                  Z.of_nat (List.length
                              (List.filter (fun e => negb (is_read e)) emails));
                recent_emails := emails;
                summary := summary |}
     end)
    (fun e => raise e).

Definition review_prompt (to subject body : value) : string :=
  "Please review this email:" ++ nl ++ "To: " ++ str to ++ nl
  ++ "Subject: " ++ str subject ++ nl ++ "Content: " ++ str body ++ nl ++ nl
  ++ "Is this appropriate to send?".

(** [send_email]: review by the model, confirmation by the user, then
    the backend; [False] on every path that does not send. *)
Definition send_email (w : world) (to subject body : value) : M bool :=
  catch
    ((* logger.info(f"Content length: {len(content)} characters") *)
     _ <- lift (len body) ;;
     reviewed <- catch (review <- _get_ai_response w (review_prompt to subject body) ;;
                        ret (Some review))
                       (fun _ => ret None) ;;
     match reviewed with
     | None => ret false
     | Some review =>
         emit (ConsolePrint review) ;;;
         let question := "Would you like to send this email?" in
         emit (PromptAsk question) ;;;
         let user_choice := prompt_ask w question in
         if String.eqb user_choice "y" then
           catch (GmailTools.create_email w to subject body)
                 (fun _ => ret false)
         else ret false
     end)
    (fun _ => ret false).

(** [get_specific_email]. *)
Definition get_specific_email (w : world) (email_id : string) : M (option Email) :=
  catch (GmailTools.get_email w email_id) (fun _ => ret None).

(** ** The email handler *)

(** The parsed analysis: the value of ["intent"] when it is present and
    a string, the mapping under ["parameters"] when it is present. *)
Record analysis_data := {
  ad_intent : option string;
  ad_parameters : option (gmap string value)
}.

Definition key (o : option string) (k : string) : exn + string :=
  match o with
  | Some x => inr x
  | None => inl (OtherException "KeyError" ("'" ++ k ++ "'"))
  end.

Definition key_params (o : option (gmap string value)) : exn + gmap string value :=
  match o with
  | Some x => inr x
  | None => inl (OtherException "KeyError" "'parameters'")
  end.

Definition unclear_email_intent : string :=
  "## ❌ Unclear Intent" ++ nl
  ++ "I couldn't determine what email action you want to perform. Please try again with more specific details.".

Definition email_sent : string := "## ✅ Email Sent Successfully".
Definition email_not_sent : string := "## ❌ Failed to Send Email".

(** The [summarize] branch. *)
Definition gmail_summarize (w : world) (found : gmap string value) : M string :=
  catch
    (let count := get_default found "count" (VInt 5) in
     s <- summarize_emails w count ;;
     let email_list :=
       map (fun email =>
              "• **" ++ subject email ++ "**" ++ nl ++ "  From: " ++ sender email
              ++ nl ++ "  Date: " ++ strftime_minute (timestamp email))
           (recent_emails s) in
     ret ("## 📧 Email Summary" ++ nl ++ nl
          ++ "### 📊 Overview" ++ nl
          ++ "- **Total Emails:** " ++ PyStr.of_Z (total_emails s) ++ nl
          ++ "- **Unread Count:** " ++ PyStr.of_Z (unread_count s) ++ nl ++ nl
          ++ "### 📝 AI-Generated Summary" ++ nl
          ++ summary s ++ nl ++ nl
          ++ "### 📋 Recent Emails" ++ nl
          ++ PyStr.join nl email_list))
    (fun e =>
       match e with
       | ValueError msg =>
           ret ("I encountered an error while summarizing emails: " ++ msg)
       | _ =>
           ret ("I encountered an unexpected error while summarizing emails: "
                ++ exn_str e)
       end).

(** The [send] branch. *)
Definition gmail_send_branch (w : world) (found : gmap string value) : M string :=
  catch
    (sent <- send_email w (get found "to") (get found "subject") (get found "content") ;;
     if sent then ret email_sent else ret email_not_sent)
    (fun e => ret ("I encountered an error while sending the email: " ++ exn_str e)).

(** The [retrieve] branch. *)
Definition gmail_retrieve (w : world) (found : gmap string value) : M string :=
  catch
    (let email_id := get found "email_id" in
     if negb (truthy email_id) then ret "Please provide an email ID to retrieve."
     else
       email <- get_specific_email w (str email_id) ;;
       match email with
       | Some email =>
           ret ("## 📧 Email Details" ++ nl ++ nl
                ++ "### Message Information" ++ nl
                ++ "- **Subject:** " ++ subject email ++ nl
                ++ "- **From:** " ++ sender email ++ nl
                ++ "- **To:** " ++ recipient email ++ nl
                ++ "- **Date:** " ++ strftime_minute (timestamp email) ++ nl
                ++ "- **Status:** " ++ (if is_read email then "📖 Read" else "📨 Unread")
                ++ nl ++ nl
                ++ "### Content" ++ nl
                ++ content email)
       | None => ret "## ❌ Email Not Found"
       end)
    (fun e => ret ("I encountered an error while retrieving the email: " ++ exn_str e)).

(** [_handle_gmail_action]. *)
Definition _handle_gmail_action (w : world) (data : analysis_data) : M string :=
  catch
    (params <- lift (key_params (ad_parameters data)) ;;
     raw <- lift (key (ad_intent data) "intent") ;;
     let intent := PyStr.lower raw in
     match _detect_gmail_intent intent params with
     | None => ret unclear_email_intent
     | Some (intent_category, found) =>
         if String.eqb intent_category "summarize" then gmail_summarize w found
         else if String.eqb intent_category "send" then gmail_send_branch w found
         else if String.eqb intent_category "retrieve" then gmail_retrieve w found
         else ret ("## ❌ Unsupported Intent" ++ nl
                   ++ "I couldn't process this email action. Please try again with a different request.")
     end)
    (fun e =>
       ret ("I encountered an error while processing your email request: " ++ exn_str e)).

(** ** The calendar handler: arguments of the event listing *)

(** The [list] branch up to its call of [list_events]: the start date,
    the end date and the result limit it passes, [now] being the value
    of [datetime.now()] read at the top of the branch. *)
Definition list_events_arguments (now : datetime) (found : gmap string value)
  : value * value * value :=
  let current_date := now in
  let start_date := get found "start_date" in
  let start_date :=
    if negb (truthy start_date) then VStr (strftime_date current_date)
    else start_date in
  let end_date := get found "end_date" in
  let end_date :=
    if negb (truthy end_date)
    then VStr (strftime_date (current_date + timedelta_days 7))
    else end_date in
  let count := get_default found "count" (VInt 5) in
  (start_date, end_date, count).

(** ** The dispatcher *)

Definition analysis_prompt (current_date user_input : string) : string :=
  "Current date: " ++ current_date ++ nl
  ++ nl
  ++ "Analyze this request: " ++ dq ++ user_input ++ dq ++ nl
  ++ "Determine:" ++ nl
  ++ "1. The user's intent" ++ nl
  ++ "2. Required actions" ++ nl
  ++ "3. Parameters needed (including dates, considering current date: " ++ current_date ++ ")" ++ nl
  ++ "4. Available tools to use" ++ nl
  ++ nl
  ++ "Return ONLY a JSON object in this exact format:" ++ nl
  ++ "{" ++ nl
  ++ "    " ++ dq ++ "intent" ++ dq ++ ": " ++ dq ++ "string" ++ dq ++ "," ++ nl
  ++ "    " ++ dq ++ "actions" ++ dq ++ ": [" ++ dq ++ "action1" ++ dq ++ ", " ++ dq ++ "action2" ++ dq ++ "]," ++ nl
  ++ "    " ++ dq ++ "parameters" ++ dq ++ ": {" ++ nl
  ++ "        " ++ dq ++ "start_date" ++ dq ++ ": " ++ dq ++ "YYYY-MM-DD" ++ dq ++ ",  # Optional, use current date (" ++ current_date ++ ") as reference" ++ nl
  ++ "        " ++ dq ++ "end_date" ++ dq ++ ": " ++ dq ++ "YYYY-MM-DD" ++ dq ++ ",    # Optional" ++ nl
  ++ "        " ++ dq ++ "event_title" ++ dq ++ ": " ++ dq ++ "string" ++ dq ++ ",     # Optional" ++ nl
  ++ "        " ++ dq ++ "event_description" ++ dq ++ ": " ++ dq ++ "string" ++ dq ++ ", # Optional" ++ nl
  ++ "        " ++ dq ++ "attendees" ++ dq ++ ": [" ++ dq ++ "email1" ++ dq ++ ", " ++ dq ++ "email2" ++ dq ++ "], # Optional" ++ nl
  ++ "        " ++ dq ++ "duration_minutes" ++ dq ++ ": 60,      # Optional" ++ nl
  ++ "        " ++ dq ++ "count" ++ dq ++ ": 5                   # Optional, for listing events" ++ nl
  ++ "    }," ++ nl
  ++ "    " ++ dq ++ "tools" ++ dq ++ ": [" ++ dq ++ "tool1" ++ dq ++ ", " ++ dq ++ "tool2" ++ dq ++ "]" ++ nl
  ++ "}" ++ nl
  ++ nl
  ++ "For relative dates:" ++ nl
  ++ "- " ++ dq ++ "today" ++ dq ++ " should be " ++ current_date ++ nl
  ++ "- " ++ dq ++ "tomorrow" ++ dq ++ " should be the next day" ++ nl
  ++ "- " ++ dq ++ "next week" ++ dq ++ " should be 7 days from " ++ current_date ++ nl
  ++ "- " ++ dq ++ "next month" ++ dq ++ " should be the first day of the next month" ++ nl
  ++ "- " ++ dq ++ "this week" ++ dq ++ " should be from " ++ current_date ++ " to 6 days later" ++ nl
  ++ "- " ++ dq ++ "this month" ++ dq ++ " should be from " ++ current_date ++ " to the last day of the current month" ++ nl
  ++ nl
  ++ "Do not include any other text or explanation.".

(** The cleaning step applied to the model's answer before it is parsed. *)
Definition clean_analysis (analysis : string) : string :=
  let analysis := PyStr.strip analysis in
  let analysis :=
    if PyStr.startswith "```json" analysis then PyStr.drop 7 analysis
    else analysis in
  let analysis :=
    if PyStr.endswith "```" analysis then PyStr.drop_end 3 analysis
    else analysis in
  PyStr.strip analysis.

Definition email_intent_patterns : list string :=
  [ "email"; "mail"; "inbox"; "message"; "correspondence";
    "send"; "write"; "compose"; "draft"; "forward"; "reply";
    "incoming"; "outgoing"; "unread"; "read"; "inbox";
    "mailbox"; "correspondence"; "communication"; "notify";
    "notification"; "alert"; "reminder"; "announcement" ].

Definition calendar_intent_patterns : list string :=
  [ "calendar"; "schedule"; "event"; "meeting"; "appointment";
    "booking"; "reservation"; "plan"; "arrange"; "organize";
    "time"; "slot"; "availability"; "free"; "busy"; "occupied";
    "upcoming"; "future"; "date"; "day"; "week"; "month";
    "agenda"; "diary"; "timetable"; "program"; "session";
    "conference"; "call"; "interview"; "presentation" ].

Inductive domain := EmailDomain | CalendarDomain | GeneralQuestion.

(** The two tests on the lower-cased intent, email first. *)
Definition select_domain (intent : string) : domain :=
  let email_match := PyStr.any_in email_intent_patterns intent in
  if email_match then EmailDomain
  else
    let calendar_match := PyStr.any_in calendar_intent_patterns intent in
    if calendar_match then CalendarDomain else GeneralQuestion.

Definition rephrase_reply : string :=
  "I encountered an error analyzing your request. Please try rephrasing it.".

Section Dispatcher.

(** [json.loads] followed by the reading of the two keys the program
    uses; [None] is a [JSONDecodeError]. *)
Variable json_loads : string -> option analysis_data.

(** [_handle_calendar_action], whose branches talk to the calendar
    backend. *)
Variable _handle_calendar_action : analysis_data -> M string.

(** The routing of a parsed analysis to a handler. *)
Definition route (w : world) (data : analysis_data) (user_input : string)
  : M string :=
  raw <- lift (key (ad_intent data) "intent") ;;
  let intent := PyStr.lower raw in
  match select_domain intent with
  | EmailDomain => _handle_gmail_action w data
  | CalendarDomain => _handle_calendar_action data
  | GeneralQuestion => _get_ai_response w user_input
  end.

(** [_process_command], [now] being [datetime.now()]. *)
Definition _process_command (w : world) (now : datetime) (user_input : string)
  : M string :=
  catch
    (let current_date := strftime_date now in
     answered <-
       catch (analysis <- _get_ai_response w (analysis_prompt current_date user_input) ;;
              ret (inr analysis))
             (fun e =>
                match e with
                | ValueError msg =>
                    ret (inl ("I encountered an error analyzing your request: " ++ msg))
                | _ => raise e
                end) ;;
     match answered with
     | inl reply => ret reply
     | inr analysis =>
         catch
           (match json_loads (clean_analysis analysis) with
            | None => raise (OtherException "JSONDecodeError" "")
            | Some data => route w data user_input
            end)
           (fun _ => ret rephrase_reply)
     end)
    (fun _ => ret "I encountered an error processing your command.").

End Dispatcher.

End CalendarAgent.

(* ===================================================================== *)
(** * utils.py *)
(* ===================================================================== *)

Module Utils.

(** [s[:n]] for any integer [n]: the first [n] characters, or all but
    the last [-n] when [n] is negative. *)
Definition slice_to (n : Z) (s : string) : string :=
  if 0 <=? n then PyStr.take (Z.to_nat n) s
  else PyStr.take (String.length s - Z.to_nat (- n)) s.

(** [truncate_text] ([max_length] defaults to 100). *)
Definition truncate_text (text : string) (max_length : Z) : string :=
  if Z.of_nat (String.length text) <=? max_length then text
  else slice_to max_length text ++ "...".

End Utils.

(* ===================================================================== *)
(** * tools.py: the bounds of a calendar request *)
(* ===================================================================== *)

Module CalendarRequests.

(** A date without a time part gets the start of its day. *)
Definition rfc3339_start (date : string) : string :=
  if negb (PyStr.contains "T" date) then date ++ "T00:00:00Z" else date.

(** A date without a time part gets the end of its day. *)
Definition rfc3339_end (date : string) : string :=
  if negb (PyStr.contains "T" date) then date ++ "T23:59:59Z" else date.

(** [if date: ...]: [None] and the empty string are left as they are. *)
Definition when_given (convert : string -> string) (date : option string)
  : option string :=
  match date with
  | Some d => if negb (String.eqb d "") then Some (convert d) else Some d
  | None => None
  end.

(** The [timeMin] and [timeMax] that [list_events] sends to the backend. *)
Definition list_events_bounds (start_date end_date : option string)
  : option string * option string :=
  (when_given rfc3339_start start_date, when_given rfc3339_end end_date).

(** The [timeMin] and [timeMax] that [check_availability] sends. *)
Definition check_availability_bounds (start_date end_date : string)
  : string * string :=
  (rfc3339_start start_date, rfc3339_end end_date).

End CalendarRequests.

(* ===================================================================== *)
(** * tools.py: creating an event *)
(* ===================================================================== *)

Module CalendarEvents.

Import Py Datetime.

(** The body of the insert request. *)
Record event_body := {
  body_summary : string;
  body_description : string;
  body_start : string;          (* start.dateTime, with start.timeZone = UTC *)
  body_end : string;            (* end.dateTime, with end.timeZone = UTC *)
  body_attendees : option (list string);
  body_location : option string
}.

(** [t.strftime('%Y-%m-%dT%H:%M:%SZ')]. *)
Definition strftime_rfc3339 (t : datetime) : string :=
  strftime_date t ++ "T" ++ PyStr.pad 2 (hour t) ++ ":" ++ PyStr.pad 2 (minute t)
  ++ ":" ++ PyStr.pad 2 (second t) ++ "Z".

(** [s.replace('Z', '+00:00')]. *)
Fixpoint replace_Z (s : string) : string :=
  match s with
  | EmptyString => EmptyString
  | String c s' =>
      if Ascii.eqb c "Z" then "+00:00" ++ replace_Z s' else String c (replace_Z s')
  end.

Definition invalid_date (start_date : string) : exn :=
  ValueError ("Invalid date format: " ++ start_date
              ++ ". Please use ISO format (YYYY-MM-DDTHH:MM:SSZ)").

Section CreateEvent.

(** [datetime.fromisoformat]; [None] is its [ValueError]. *)
Variable fromisoformat : string -> option datetime.

(** The event the backend creates, and
    [service.events().insert(body=...).execute()]. *)
Variable created : Type.
Variable events_insert : event_body -> exn + created.

(** [CalendarTools.create_event]: the result, and the requests sent to
    the backend. Every [ValueError] raised between the parsing of the
    date and the backend's answer is raised again as an invalid date. *)
Definition create_event (summary description start_date : string)
  (duration_minutes : Z) (attendees : option (list string))
  (location : option string) : (exn + created) * list event_body :=
  match fromisoformat (replace_Z start_date) with
  | None => (inl (invalid_date start_date), [])
  | Some start_datetime =>
      let end_datetime := start_datetime + timedelta_minutes duration_minutes in
      let event :=
        {| body_summary := summary;
           body_description := description;
           body_start := strftime_rfc3339 start_datetime;
           body_end := strftime_rfc3339 end_datetime;
           body_attendees :=
             match attendees with
             | Some (a :: l) => Some (a :: l)
             | _ => None
             end;
           body_location :=
             match location with
             | Some l => if String.eqb l "" then None else Some l
             | None => None
             end |} in
      match events_insert event with
      | inr event' => (inr event', [event])
      | inl (ValueError _) => (inl (invalid_date start_date), [event])
      | inl e => (inl e, [event])
      end
  end.

End CreateEvent.

End CalendarEvents.

(* ===================================================================== *)
(** * main.py: the interactive loop *)
(* ===================================================================== *)

Module Session.

Import Py Eff Models Datetime.

(** The state of a session: the conversation, the trace of calls, and
    whether the loop has ended. *)
Record state := {
  conversation : ConversationHistory;
  calls : list event;
  ended : bool
}.

Definition you_prompt : string :=
  CalendarAgent.nl ++ "[bold blue]You[/bold blue]".
Definition goodbye : string := "[bold green]Goodbye![/bold green]".
Definition loop_error : string :=
  "[bold red]An error occurred. Please try again.[/bold red]".

Section Loop.

Variable cls : Message_class.
Variable json_loads : string -> option CalendarAgent.analysis_data.
Variable _handle_calendar_action : CalendarAgent.analysis_data -> M string.
Variable w : world.

(** One iteration of [while True] in [run]: the user types [user_input]
    at time [now]. *)
Definition turn (st : state) (now : datetime) (user_input : string) : state :=
  let asked := (calls st ++ [PromptAsk you_prompt])%list in
  if String.eqb (PyStr.lower user_input) "exit" then
    {| conversation := conversation st;
       calls := (asked ++ [ConsolePrint goodbye])%list;
       ended := true |}
  else
    let with_user := add_message cls (conversation st) "user" user_input in
    match CalendarAgent._process_command json_loads _handle_calendar_action
            w now user_input asked with
    | (inr response, after) =>
        {| conversation := add_message cls with_user "assistant" response;
           calls := (after ++ [ConsolePrint response])%list;
           ended := false |}
    | (inl _, after) =>
        {| conversation := with_user;
           calls := (after ++ [ConsolePrint loop_error])%list;
           ended := false |}
    end.

(** The loop over the lines the user types, each with the time it is
    typed at; nothing is read once the loop has ended. *)
Fixpoint run_loop (st : state) (typed : list (datetime * string)) : state :=
  match typed with
  | [] => st
  | (now, user_input) :: rest =>
      if ended st then st
      else run_loop (turn st now user_input) rest
  end.

End Loop.

(** The session as [CalendarAgent.__init__] leaves it. *)
Definition start : state :=
  {| conversation := new_ConversationHistory; calls := []; ended := false |}.

End Session.

(* ===================================================================== *)
(** * Notions used in the statements *)
(* ===================================================================== *)

(** The cursor when the loop of the free-slot search reaches position
    [i] of [events] (for [i = length events]: when the loop has ended). *)
Definition cursor_before (start_time : Datetime.datetime)
  (events : list CalendarTools.Event) (duration_minutes : Z) (i : nat)
  : Datetime.datetime :=
  fst (CalendarTools.scan_events start_time (take i events) duration_minutes).

(** [s] is the slot of the requested duration that starts at [cursor],
    and the gap from [cursor] to [limit] admits it. *)
Definition emitted_at (cursor limit : Datetime.datetime) (duration_minutes : Z)
  (s : CalendarTools.Slot) : Prop :=
  CalendarTools.slot_start s = cursor
  /\ CalendarTools.slot_end s = cursor + Datetime.timedelta_minutes duration_minutes
  /\ Datetime.timedelta_minutes duration_minutes <= limit - cursor.

(** [c] is one of the characters of [s]. *)
Fixpoint char_in (c : ascii) (s : string) : bool :=
  match s with
  | EmptyString => false
  | String c' s' => Ascii.eqb c c' || char_in c s'
  end.

Fixpoint all_chars (p : ascii -> bool) (s : string) : bool :=
  match s with
  | EmptyString => true
  | String c s' => p c && all_chars p s'
  end.

Definition not_backtick (c : ascii) : bool := negb (Ascii.eqb c "`").
Definition not_space (c : ascii) : bool := negb (PyStr.isspace c).

(** The characters a JSON document can begin with and end with, as
    [json.loads] accepts them (objects, arrays, strings, numbers,
    [true], [false], [null], [NaN], [Infinity]). *)
Definition json_opening : string := "{[-0123456789tfnNI" ++ CalendarAgent.dq.
Definition json_closing : string := "}]0123456789elNy" ++ CalendarAgent.dq.

(** A text that begins and ends as a JSON document does: its first and
    last characters are not whitespace. *)
Definition json_text (j : string) : bool :=
  match PyStr.first_char j, PyStr.last_char j with
  | Some a, Some b => char_in a json_opening && char_in b json_closing
  | _, _ => false
  end.

(** The event is a call of [GmailTools.create_email]. *)
Definition is_create_email (ev : Eff.event) : bool :=
  match ev with
  | Eff.GmailCreateEmail _ _ _ => true
  | _ => false
  end.

Definition confirmation_question : string := "Would you like to send this email?".

(** The keys of the ["parameters"] object in the answer format that
    [analysis_prompt] asks the model for. *)
Definition prompt_parameter_keys : list string :=
  [ "start_date"; "end_date"; "event_title"; "event_description";
    "attendees"; "duration_minutes"; "count" ].

(** The message has the three headers and the body that the tools read. *)
Definition message_complete (msg : Eff.gmail_message) : bool :=
  match GmailTools.header "Subject" (Eff.headers msg),
        GmailTools.header "From" (Eff.headers msg),
        GmailTools.header "To" (Eff.headers msg),
        GmailTools.message_content msg with
  | inr _, inr _, inr _, inr _ => true
  | _, _, _, _ => false
  end.

(** The backend delivers the message [message_id], and it is complete. *)
Definition fetches (w : Eff.world) (message_id : string) : bool :=
  match Eff.gmail_get w message_id with
  | inr msg => message_complete msg
  | inl _ => false
  end.

(** The query [get_all_emails] sends. *)
Definition mailbox_query (unread_only : bool) : string :=
  if unread_only then "is:unread" else "".

(** What [_get_ai_response] returns or raises for a provider answer. *)
Definition gateway_result (answer : Py.exn + string) : Py.exn + string :=
  match answer with
  | inl (Py.BadRequestError msg) =>
      if PyStr.contains "context_length_exceeded" msg
      then inl (Py.ValueError "The content is too long for the AI model to process. Please try with fewer emails or shorter content.")
      else inl (Py.BadRequestError msg)
  | other => other
  end.

(** The characters of a date as [strftime_date] writes it. *)
Definition date_char (c : ascii) : bool := char_in c "-0123456789".

(* ===================================================================== *)
(** * Scenarios *)
(* ===================================================================== *)

(** Twelve calls of [add_message], one per microsecond. *)
Definition twelve_calls : list Models.add_call :=
  map (fun n => {| Models.call_time := Z.of_nat n;
                   Models.call_role := "user";
                   Models.call_content := PyStr.of_Z (Z.of_nat n) |})
      (seq 0 12).

(** Two meetings on one day, and a meeting that contains another. *)
Definition at_ (hh mm : Z) : Datetime.datetime := Datetime.make 2024 1 15 hh mm 0.

Definition two_meetings : list CalendarTools.Event :=
  [ {| CalendarTools.event_start := at_ 10 0; CalendarTools.event_end := at_ 10 30 |};
    {| CalendarTools.event_start := at_ 11 0; CalendarTools.event_end := at_ 12 0 |} ].

Definition nested_meetings : list CalendarTools.Event :=
  [ {| CalendarTools.event_start := at_ 10 0; CalendarTools.event_end := at_ 12 0 |};
    {| CalendarTools.event_start := at_ 10 30; CalendarTools.event_end := at_ 11 0 |} ].

Definition midday : Datetime.datetime := Datetime.make 2024 1 15 12 0 0.

(** A model answer: an analysis object with an intent and no parameters. *)
Definition sample_json : string :=
  "{" ++ CalendarAgent.dq ++ "intent" ++ CalendarAgent.dq ++ ": "
  ++ CalendarAgent.dq ++ "list my events" ++ CalendarAgent.dq ++ ", "
  ++ CalendarAgent.dq ++ "parameters" ++ CalendarAgent.dq ++ ": {}}".

(** A user who declines, and a user who confirms while the backend
    fails. *)
Definition declining_world : Eff.world :=
  {| Eff.chat_completion := fun _ => inr "This email looks appropriate to send.";
     Eff.prompt_ask := fun _ => "n";
     Eff.gmail_list := fun _ _ => inr [];
     Eff.gmail_get := fun _ => inl (Py.OtherException "HttpError" "404");
     Eff.gmail_send := fun _ _ _ => inr tt |}.

Definition failing_backend_world : Eff.world :=
  {| Eff.chat_completion := fun _ => inr "This email looks appropriate to send.";
     Eff.prompt_ask := fun _ => "y";
     Eff.gmail_list := fun _ _ => inr [];
     Eff.gmail_get := fun _ => inl (Py.OtherException "HttpError" "404");
     Eff.gmail_send := fun _ _ _ => inl (Py.OtherException "HttpError" "500") |}.

Definition send_entities : gmap string Py.value :=
  <["to" := Py.VStr "john@example.com"]>
    (<["subject" := Py.VStr "Project update"]>
       (<["content" := Py.VStr "The release is on Friday."]> ∅)).

Definition mixed_intent : CalendarAgent.analysis_data :=
  {| CalendarAgent.ad_intent := Some "Send an email about the meeting schedule";
     CalendarAgent.ad_parameters := Some send_entities |}.

(** A mailbox whose listing for [is:unread] has three messages, each
    carrying the [UNREAD] label. *)
Definition unread_message (n : string) : Eff.gmail_message :=
  {| Eff.headers := [ ("Subject", "Report " ++ n);
                      ("From", "alice@example.com");
                      ("To", "me@example.com") ];
     Eff.parts := None;
     Eff.body_data := Some ("Body of report " ++ n);
     Eff.internalDate := 1705312800000;
     Eff.labelIds := [ "UNREAD"; "INBOX" ] |}.

Definition inbox_world : Eff.world :=
  {| Eff.chat_completion := fun _ => inr "Three reports arrived.";
     Eff.prompt_ask := fun _ => "n";
     Eff.gmail_list :=
       fun _ query => if String.eqb query "is:unread" then inr [ "1"; "2"; "3" ] else inr [];
     Eff.gmail_get := fun message_id => inr (unread_message message_id);
     Eff.gmail_send := fun _ _ _ => inr tt |}.

(** Parameters in the format the prompt asks for. *)
Definition availability_parameters : gmap string Py.value :=
  <["start_date" := Py.VStr "2024-01-15"]>
    (<["end_date" := Py.VStr "2024-01-16"]>
       (<["duration_minutes" := Py.VInt 30]> ∅)).

(** A mailbox with nothing unread, a user who confirms while the
    backend works, and a provider that rejects the request as too long. *)
Definition empty_inbox_world : Eff.world :=
  {| Eff.chat_completion := fun _ => inr "Nothing to report.";
     Eff.prompt_ask := fun _ => "n";
     Eff.gmail_list := fun _ _ => inr [];
     Eff.gmail_get := fun _ => inl (Py.OtherException "HttpError" "404");
     Eff.gmail_send := fun _ _ _ => inr tt |}.

Definition confirming_world : Eff.world :=
  {| Eff.chat_completion := fun _ => inr "This email looks appropriate to send.";
     Eff.prompt_ask := fun _ => "y";
     Eff.gmail_list := fun _ _ => inr [];
     Eff.gmail_get := fun _ => inl (Py.OtherException "HttpError" "404");
     Eff.gmail_send := fun _ _ _ => inr tt |}.

Definition overloaded_world : Eff.world :=
  {| Eff.chat_completion :=
       fun _ => inl (Py.BadRequestError "Error code: 400 - context_length_exceeded");
     Eff.prompt_ask := fun _ => "n";
     Eff.gmail_list := fun _ _ => inr [];
     Eff.gmail_get := fun _ => inl (Py.OtherException "HttpError" "404");
     Eff.gmail_send := fun _ _ _ => inr tt |}.

Definition retrieve_entities : gmap string Py.value :=
  <["email_id" := Py.VStr "abc123"]> ∅.

(** An analysis whose intent belongs to neither domain. *)
Definition joke_intent : CalendarAgent.analysis_data :=
  {| CalendarAgent.ad_intent := Some "Tell a joke";
     CalendarAgent.ad_parameters := Some ∅ |}.

(** A parser that knows one date, and a backend that rejects every
    event with a [ValueError]. *)
Definition parse_one_date (s : string) : option Datetime.datetime :=
  if String.eqb s "2024-01-15T10:00:00+00:00" then Some (Datetime.make 2024 1 15 10 0 0)
  else None.

Definition rejecting_insert (body : CalendarEvents.event_body) : Py.exn + string :=
  inl (Py.ValueError "Invalid value for attendee").

(* ===================================================================== *)
(** * Properties of the conversation store *)
(* ===================================================================== *)

Section ConversationStore.

Import Models.

Variable cls : Message_class.

Lemma add_message_max_history (h : ConversationHistory) (role content : string) :
  max_history (add_message cls h role content) = max_history h.
Proof. reflexivity. Qed.

Lemma add_message_messages (h : ConversationHistory) (role content : string) :
  messages (add_message cls h role content) =
  let appended := (messages h ++ [new_Message cls role content None])%list in
  if Z.of_nat (List.length appended) >? max_history h then pop0 appended else appended.
Proof. reflexivity. Qed.

Lemma add_message_bounded (h : ConversationHistory) (role content : string) :
  Z.of_nat (List.length (messages h)) <= max_history h ->
  Z.of_nat (List.length (messages (add_message cls h role content))) <= max_history h.
Proof.
  intros Hinv. rewrite add_message_messages. cbv zeta.
  destruct (Z.gtb_spec (Z.of_nat (List.length (messages h ++ [new_Message cls role content None])))
              (max_history h)) as [Hgt | Hle].
  - unfold pop0. destruct (messages h) as [| m ms]; simpl in *; [lia |].
    rewrite length_app. simpl. lia.
  - exact Hle.
Qed.

Lemma add_messages_max_history (calls : list add_call) (h : ConversationHistory) :
  max_history (add_messages cls h calls) = max_history h.
Proof.
  revert h. induction calls as [| c calls IH]; intros h; [reflexivity |].
  unfold add_messages in *. simpl. rewrite IH. apply add_message_max_history.
Qed.

Lemma add_messages_bounded (calls : list add_call) (h : ConversationHistory) :
  Z.of_nat (List.length (messages h)) <= max_history h ->
  Z.of_nat (List.length (messages (add_messages cls h calls))) <= max_history h.
Proof.
  revert h. induction calls as [| c calls IH]; intros h Hinv; [exact Hinv |].
  unfold add_messages in *. simpl.
  rewrite <- (add_message_max_history h (call_role c) (call_content c)).
  apply IH. rewrite add_message_max_history. now apply add_message_bounded.
Qed.

Lemma add_message_below (h : ConversationHistory) (role content : string) :
  Z.of_nat (List.length (messages h)) < max_history h ->
  messages (add_message cls h role content) =
  (messages h ++ [new_Message cls role content None])%list.
Proof.
  intros Hlt. rewrite add_message_messages. cbv zeta.
  rewrite length_app. simpl.
  destruct (Z.gtb_spec (Z.of_nat (List.length (messages h) + 1)) (max_history h)); [lia | reflexivity].
Qed.

Lemma add_message_full (h : ConversationHistory) (role content : string)
  (oldest : Message) (rest : list Message) :
  messages h = oldest :: rest ->
  Z.of_nat (List.length (messages h)) = max_history h ->
  messages (add_message cls h role content) =
  (rest ++ [new_Message cls role content None])%list.
Proof.
  intros Hm Hfull. rewrite add_message_messages. cbv zeta.
  rewrite length_app. simpl.
  destruct (Z.gtb_spec (Z.of_nat (List.length (messages h) + 1)) (max_history h)); [| lia].
  rewrite Hm. reflexivity.
Qed.

Lemma add_message_timestamps (h : ConversationHistory) (role content : string) :
  Forall (fun m => msg_timestamp m = timestamp_default cls) (messages h) ->
  Forall (fun m => msg_timestamp m = timestamp_default cls)
         (messages (add_message cls h role content)).
Proof.
  intros Hall. rewrite add_message_messages. cbv zeta.
  assert (Happ : Forall (fun m => msg_timestamp m = timestamp_default cls)
                   (messages h ++ [new_Message cls role content None])).
  { apply Forall_app. split; [exact Hall |]. constructor; [reflexivity | constructor]. }
  destruct (_ >? _); [| exact Happ].
  unfold pop0. destruct (messages h ++ [new_Message cls role content None])%list; simpl.
  - constructor.
  - now inversion Happ.
Qed.

Lemma add_messages_timestamps (calls : list add_call) (h : ConversationHistory) :
  Forall (fun m => msg_timestamp m = timestamp_default cls) (messages h) ->
  Forall (fun m => msg_timestamp m = timestamp_default cls)
         (messages (add_messages cls h calls)).
Proof.
  revert h. induction calls as [| c calls IH]; intros h Hall; [exact Hall |].
  unfold add_messages in *. simpl. apply IH. now apply add_message_timestamps.
Qed.

End ConversationStore.

(** C5. Starting from a history within its capacity (the freshly created
    one in particular), after any sequence of [add_message] calls the
    capacity is unchanged and the number of stored messages is at most
    [max_history]; a further insertion below capacity appends, and one
    into a full history evicts exactly the oldest message and keeps the
    order of the others. *)
Theorem history_bounded_fifo :
  forall (cls : Models.Message_class) (h : Models.ConversationHistory)
         (calls : list Models.add_call),
    Z.of_nat (List.length (Models.messages h)) <= Models.max_history h ->
    let h' := Models.add_messages cls h calls in
    Models.max_history h' = Models.max_history h
    /\ Z.of_nat (List.length (Models.messages h')) <= Models.max_history h
    /\ forall role content : string,
         let added := Models.new_Message cls role content None in
         (Z.of_nat (List.length (Models.messages h')) < Models.max_history h ->
          Models.messages (Models.add_message cls h' role content)
          = (Models.messages h' ++ [added])%list)
         /\ (forall oldest rest,
               Models.messages h' = oldest :: rest ->
               Z.of_nat (List.length (Models.messages h')) = Models.max_history h ->
               Models.messages (Models.add_message cls h' role content)
               = (rest ++ [added])%list).
Proof.
  intros cls h calls Hinv h'. subst h'.
  split; [apply add_messages_max_history |].
  split; [now apply add_messages_bounded |].
  intros role content added. subst added. split.
  - intros Hlt. apply add_message_below. now rewrite add_messages_max_history.
  - intros oldest rest Hm Hfull. apply add_message_full with (oldest := oldest); [exact Hm |].
    now rewrite add_messages_max_history.
Qed.

Lemma history_bounded_fifo_witness :
  Z.of_nat (List.length (Models.messages
     (Models.add_messages (Models.define_Message 0) Models.new_ConversationHistory twelve_calls)))
  <= Models.max_history Models.new_ConversationHistory.
Proof.
  apply (history_bounded_fifo (Models.define_Message 0) Models.new_ConversationHistory twelve_calls).
  vm_compute. discriminate.
Defined.

(** C10. The default of [Message.timestamp] is the one value computed
    when the class was defined: every message stored by [add_message]
    calls on a fresh history carries it, whatever the times of the
    calls, so two messages added at different times have equal
    timestamps. *)
Theorem message_timestamp_fixed_at_definition :
  forall (load_time : Datetime.datetime) (calls : list Models.add_call),
    let cls := Models.define_Message load_time in
    Forall (fun m => Models.msg_timestamp m = load_time)
           (Models.messages (Models.add_messages cls Models.new_ConversationHistory calls))
    /\ forall (t1 t2 : Datetime.datetime) (r1 c1 r2 c2 : string),
         exists m1 m2,
           Models.messages
             (Models.add_messages cls Models.new_ConversationHistory
                [ {| Models.call_time := t1; Models.call_role := r1; Models.call_content := c1 |};
                  {| Models.call_time := t2; Models.call_role := r2; Models.call_content := c2 |} ])
           = [m1; m2]
           /\ Models.msg_content m1 = c1 /\ Models.msg_content m2 = c2
           /\ Models.msg_timestamp m1 = Models.msg_timestamp m2.
Proof.
  intros load_time calls cls. split.
  - apply (add_messages_timestamps cls calls Models.new_ConversationHistory). constructor.
  - intros t1 t2 r1 c1 r2 c2. eexists. eexists. split; [reflexivity |].
    repeat split.
Qed.

(* ===================================================================== *)
(** * Properties of the free-slot search *)
(* ===================================================================== *)

Section FreeSlots.

Import Datetime CalendarTools.

Lemma slot_before_spec (cursor limit : datetime) (d : Z) (s : Slot) :
  In s (slot_before cursor limit d) <-> emitted_at cursor limit d s.
Proof.
  unfold slot_before, emitted_at, timedelta_minutes, usec_per_minute, usec_per_second.
  destruct (Z.leb_spec (d * 60 * 1000000) (limit - cursor)) as [Hgap | Hgap].
  - destruct (Z.leb_spec (cursor + d * (60 * 1000000)) limit) as [Hfit | Hfit]; [| lia].
    simpl. split.
    + intros [<- | []]. simpl. lia.
    + intros (Hs & He & _). left. destruct s as [a b]. simpl in *. now subst.
  - simpl. split; [tauto | lia].
Qed.

Lemma scan_events_snoc (start_time : datetime) (events : list Event) (ev : Event) (d : Z) :
  scan_events start_time (events ++ [ev]) d
  = visit_event d (scan_events start_time events d) ev.
Proof. unfold scan_events. now rewrite fold_left_app. Qed.

Lemma scan_events_cursor_snoc (start_time : datetime) (events : list Event) (ev : Event) (d : Z) :
  fst (scan_events start_time (events ++ [ev]) d) = event_end ev.
Proof.
  rewrite scan_events_snoc. now destruct (scan_events start_time events d).
Qed.

Lemma scan_events_slots_snoc (start_time : datetime) (events : list Event) (ev : Event) (d : Z) :
  snd (scan_events start_time (events ++ [ev]) d)
  = (snd (scan_events start_time events d)
     ++ slot_before (fst (scan_events start_time events d)) (event_start ev) d)%list.
Proof.
  rewrite scan_events_snoc. now destruct (scan_events start_time events d).
Qed.

Lemma cursor_before_snoc (start_time : datetime) (events : list Event) (ev : Event)
  (d : Z) (i : nat) :
  (i <= List.length events)%nat ->
  cursor_before start_time (events ++ [ev]) d i = cursor_before start_time events d i.
Proof.
  intros Hi. unfold cursor_before. now rewrite take_app_le.
Qed.

Lemma cursor_before_all (start_time : datetime) (events : list Event) (d : Z) :
  cursor_before start_time events d (List.length events)
  = fst (scan_events start_time events d).
Proof. unfold cursor_before. now rewrite firstn_all. Qed.

(** The slots collected by the loop are those emitted before some event. *)
Lemma scan_events_slots_spec (start_time : datetime) (d : Z) (s : Slot) (events : list Event) :
  In s (snd (scan_events start_time events d))
  <-> exists i ev,
        events !! i = Some ev
        /\ emitted_at (cursor_before start_time events d i) (event_start ev) d s.
Proof.
  induction events as [| ev events IH] using rev_ind.
  - simpl. split; [tauto |]. intros (i & ev & Hl & _). now rewrite lookup_nil in Hl.
  - rewrite scan_events_slots_snoc, in_app_iff, IH, slot_before_spec. split.
    + intros [(i & ev' & Hl & Hem) | Hem].
      * exists i, ev'. split; [now apply lookup_app_l_Some |].
        rewrite cursor_before_snoc; [exact Hem |].
        apply lookup_lt_Some in Hl. lia.
      * exists (List.length events), ev. split.
        -- rewrite lookup_app_r by lia. now rewrite Nat.sub_diag.
        -- rewrite cursor_before_snoc by lia. now rewrite cursor_before_all.
    + intros (i & ev' & Hl & Hem).
      destruct (Nat.lt_ge_cases i (List.length events)) as [Hlt | Hge].
      * left. exists i, ev'. split.
        -- now rewrite lookup_app_l in Hl.
        -- rewrite cursor_before_snoc in Hem by lia. exact Hem.
      * assert (i = List.length events) as ->.
        { apply lookup_lt_Some in Hl. rewrite length_app in Hl. simpl in Hl. lia. }
        right. rewrite lookup_app_r in Hl by lia. rewrite Nat.sub_diag in Hl.
        injection Hl as <-.
        rewrite cursor_before_snoc in Hem by lia. now rewrite cursor_before_all in Hem.
Qed.

Lemma free_slots_spec (start_time end_time : datetime) (events : list Event) (d : Z) (s : Slot) :
  In s (free_slots start_time end_time events d)
  <-> (exists i ev,
         events !! i = Some ev
         /\ emitted_at (cursor_before start_time events d i) (event_start ev) d s)
      \/ emitted_at (cursor_before start_time events d (List.length events)) end_time d s.
Proof.
  unfold free_slots. rewrite cursor_before_all, <- scan_events_slots_spec.
  destruct (scan_events start_time events d) as [cur slots]. simpl.
  now rewrite in_app_iff, slot_before_spec.
Qed.

End FreeSlots.

(** C2. For the events (10:00,10:30) and (11:00,12:00) in the range
    09:00 to 13:00 and a duration of 30 minutes the search returns
    exactly the slots (09:00,09:30), (10:30,11:00) and (12:00,12:30); in
    general a slot is returned exactly when it starts at the cursor
    reached before some event (or after the last one), lasts the
    requested duration, and the gap from that cursor to the event's
    start (to the end of the range after the last event) is at least
    the requested duration. *)
Theorem free_slots_between_events :
  (CalendarTools.free_slots (at_ 9 0) (at_ 13 0) two_meetings 30
   = [ {| CalendarTools.slot_start := at_ 9 0; CalendarTools.slot_end := at_ 9 30 |};
       {| CalendarTools.slot_start := at_ 10 30; CalendarTools.slot_end := at_ 11 0 |};
       {| CalendarTools.slot_start := at_ 12 0; CalendarTools.slot_end := at_ 12 30 |} ]
   /\ CalendarTools.check_availability (at_ 9 0) (at_ 13 0) two_meetings 30
      = [ {| CalendarTools.start_text := "2024-01-15 09:00 AM";
             CalendarTools.end_text := "2024-01-15 09:30 AM" |};
          {| CalendarTools.start_text := "2024-01-15 10:30 AM";
             CalendarTools.end_text := "2024-01-15 11:00 AM" |};
          {| CalendarTools.start_text := "2024-01-15 12:00 PM";
             CalendarTools.end_text := "2024-01-15 12:30 PM" |} ])
  /\ forall (start_time end_time : Datetime.datetime) (events : list CalendarTools.Event)
            (duration_minutes : Z) (s : CalendarTools.Slot),
       In s (CalendarTools.free_slots start_time end_time events duration_minutes)
       <-> (exists i ev,
              events !! i = Some ev
              /\ CalendarTools.slot_start s = cursor_before start_time events duration_minutes i
              /\ CalendarTools.slot_end s
                 = CalendarTools.slot_start s + Datetime.timedelta_minutes duration_minutes
              /\ Datetime.timedelta_minutes duration_minutes
                 <= CalendarTools.event_start ev
                    - cursor_before start_time events duration_minutes i)
           \/ (CalendarTools.slot_start s
               = cursor_before start_time events duration_minutes (List.length events)
               /\ CalendarTools.slot_end s
                  = CalendarTools.slot_start s + Datetime.timedelta_minutes duration_minutes
               /\ Datetime.timedelta_minutes duration_minutes
                  <= end_time
                     - cursor_before start_time events duration_minutes (List.length events)).
Proof.
  split; [split; vm_compute; reflexivity |].
  intros start_time end_time events d s. rewrite free_slots_spec. unfold emitted_at.
  split.
  - intros [(i & ev & Hl & Hs & He & Hgap) | (Hs & He & Hgap)].
    + left. exists i, ev. rewrite Hs. auto.
    + right. rewrite Hs. auto.
  - intros [(i & ev & Hl & Hs & He & Hgap) | (Hs & He & Hgap)].
    + left. exists i, ev. rewrite Hs in He. auto.
    + right. rewrite Hs in He. auto.
Qed.

(** C3, as the code behaves: the cursor is set to the end of each event
    unconditionally. With a meeting 10:00-12:00 that contains a meeting
    10:30-11:00 the cursor goes from 12:00 back to 11:00, and the search
    returns the slot 11:00-11:30, which lies inside the first meeting. *)
Theorem cursor_moves_back_on_nested_event :
  cursor_before (at_ 9 0) nested_meetings 30 1 = at_ 12 0
  /\ cursor_before (at_ 9 0) nested_meetings 30 2 = at_ 11 0
  /\ at_ 11 0 < at_ 12 0
  /\ CalendarTools.free_slots (at_ 9 0) (at_ 13 0) nested_meetings 30
     = [ {| CalendarTools.slot_start := at_ 9 0; CalendarTools.slot_end := at_ 9 30 |};
         {| CalendarTools.slot_start := at_ 11 0; CalendarTools.slot_end := at_ 11 30 |} ]
  /\ CalendarTools.check_availability (at_ 9 0) (at_ 13 0) nested_meetings 30
     = [ {| CalendarTools.start_text := "2024-01-15 09:00 AM";
            CalendarTools.end_text := "2024-01-15 09:30 AM" |};
         {| CalendarTools.start_text := "2024-01-15 11:00 AM";
            CalendarTools.end_text := "2024-01-15 11:30 AM" |} ].
Proof. repeat split; vm_compute; reflexivity. Qed.

(* ===================================================================== *)
(** * Properties of the cleaning step *)
(* ===================================================================== *)

Section Cleaning.

Import PyStr.

(* stdpp seals [String.append] against [simpl]; the proofs below compute
   with it. *)
#[local] Arguments String.append !_ _ : simpl nomatch.

Lemma append_assoc (a b c : string) : (a ++ b) ++ c = a ++ (b ++ c).
Proof. induction a as [| x a IH]; simpl; [reflexivity | now rewrite IH]. Qed.

Lemma append_nil_r (a : string) : a ++ "" = a.
Proof. induction a as [| x a IH]; simpl; [reflexivity | now rewrite IH]. Qed.

Lemma length_append (a b : string) :
  String.length (a ++ b) = (String.length a + String.length b)%nat.
Proof. induction a as [| x a IH]; simpl; [reflexivity | now rewrite IH]. Qed.

Lemma drop_append (a b : string) : drop (String.length a) (a ++ b) = b.
Proof. induction a as [| x a IH]; simpl; [reflexivity | exact IH]. Qed.

Lemma take_append (a b : string) : take (String.length a) (a ++ b) = a.
Proof.
  induction a as [| x a IH]; simpl; [now destruct b | now rewrite IH].
Qed.

Lemma char_in_all (p : ascii -> bool) (s : string) (c : ascii) :
  all_chars p s = true -> char_in c s = true -> p c = true.
Proof.
  induction s as [| x s IH]; simpl; [discriminate |].
  intros [Hx Hs]%andb_prop [Hc | Hc]%orb_prop.
  - apply Ascii.eqb_eq in Hc. now subst.
  - now apply IH.
Qed.

Lemma first_char_append (a b : string) (c : ascii) :
  first_char a = Some c -> first_char (a ++ b) = Some c.
Proof. destruct a; simpl; [discriminate | trivial]. Qed.

Lemma last_char_append (a b : string) (c : ascii) :
  last_char b = Some c -> last_char (a ++ b) = Some c.
Proof.
  intros Hb. induction a as [| x a IH]; simpl; [exact Hb |].
  destruct (a ++ b); [discriminate IH | exact IH].
Qed.

Lemma last_char_drop (n : nat) (s : string) :
  (n < String.length s)%nat -> last_char (drop n s) = last_char s.
Proof.
  revert s. induction n as [| n IH]; intros s Hn; [reflexivity |].
  destruct s as [| x s]; simpl in *; [lia |].
  rewrite IH by lia. destruct s; [simpl in Hn; lia | reflexivity].
Qed.

Lemma lstrip_space_append (ws s : string) :
  all_space ws = true -> lstrip (ws ++ s) = lstrip s.
Proof.
  induction ws as [| x ws IH]; simpl; [reflexivity |].
  intros [Hx Hws]%andb_prop. rewrite Hx. now apply IH.
Qed.

Lemma lstrip_fixed (s : string) (c : ascii) :
  first_char s = Some c -> isspace c = false -> lstrip s = s.
Proof.
  destruct s as [| x s]; simpl; [discriminate |].
  intros [= ->] Hc. now rewrite Hc.
Qed.

Lemma rstrip_space (ws : string) : all_space ws = true -> rstrip ws = "".
Proof.
  induction ws as [| x ws IH]; simpl; [reflexivity |].
  intros [Hx Hws]%andb_prop. now rewrite IH, Hx.
Qed.

Lemma rstrip_append_space (s ws : string) :
  all_space ws = true -> rstrip (s ++ ws) = rstrip s.
Proof.
  intros Hws. induction s as [| x s IH]; simpl; [now apply rstrip_space |].
  now rewrite IH.
Qed.

Lemma rstrip_fixed (s : string) (c : ascii) :
  last_char s = Some c -> isspace c = false -> rstrip s = s.
Proof.
  induction s as [| x s IH]; simpl; [discriminate |].
  destruct s as [| y s].
  - intros [= ->] Hc. simpl. now rewrite Hc.
  - intros Hl Hc. rewrite (IH Hl Hc). reflexivity.
Qed.

(** Stripping a text wrapped in whitespace gives the text back when its
    first and last characters are not whitespace. *)
Lemma strip_wrapped (ws1 ws2 s : string) (a b : ascii) :
  all_space ws1 = true -> all_space ws2 = true ->
  first_char s = Some a -> isspace a = false ->
  last_char s = Some b -> isspace b = false ->
  strip (ws1 ++ s ++ ws2) = s.
Proof.
  intros H1 H2 Ha Hsa Hb Hsb. unfold strip.
  rewrite lstrip_space_append by exact H1.
  rewrite (lstrip_fixed (s ++ ws2) a) by (auto using first_char_append).
  rewrite rstrip_append_space by exact H2.
  now apply rstrip_fixed with (c := b).
Qed.

Lemma endswith_append (s p : string) : endswith p (s ++ p) = true.
Proof.
  unfold endswith. rewrite length_append.
  replace (String.length s + String.length p - String.length p)%nat
    with (String.length s) by lia.
  rewrite drop_append, String.eqb_refl.
  apply andb_true_intro. split; [apply Nat.leb_le; lia | reflexivity].
Qed.

Lemma drop_end_append (s p : string) : drop_end (String.length p) (s ++ p) = s.
Proof.
  unfold drop_end. rewrite length_append.
  replace (String.length s + String.length p - String.length p)%nat
    with (String.length s) by lia.
  apply take_append.
Qed.

Lemma startswith_other_first (p s : string) (a b : ascii) :
  first_char p = Some a -> first_char s = Some b -> a <> b -> startswith p s = false.
Proof.
  destruct p as [| x p]; [discriminate |]. destruct s as [| y s]; [discriminate |].
  simpl. intros [= ->] [= ->] Hne. unfold startswith. simpl.
  destruct (ascii_dec a b); [contradiction | reflexivity].
Qed.

Lemma endswith_other_last (p s : string) (a b : ascii) :
  last_char p = Some a -> last_char s = Some b -> a <> b -> endswith p s = false.
Proof.
  intros Hp Hs Hne. unfold endswith.
  destruct (Nat.leb_spec (String.length p) (String.length s)) as [Hle | Hgt]; [| reflexivity].
  simpl. apply String.eqb_neq. intros Heq.
  assert (Hpos : (0 < String.length p)%nat) by (destruct p; [discriminate | simpl; lia]).
  rewrite <- Heq, last_char_drop, Hs in Hp by lia. congruence.
Qed.

Lemma json_text_ends (j : string) :
  json_text j = true ->
  exists a b,
    first_char j = Some a /\ last_char j = Some b
    /\ isspace a = false /\ isspace b = false /\ a <> "`"%char /\ b <> "`"%char.
Proof.
  unfold json_text. destruct (first_char j) as [a |]; [| discriminate].
  destruct (last_char j) as [b |]; [| discriminate].
  intros [Ha Hb]%andb_prop. exists a, b.
  assert (Hsa := char_in_all not_space json_opening a eq_refl Ha).
  assert (Hsb := char_in_all not_space json_closing b eq_refl Hb).
  assert (Hta := char_in_all not_backtick json_opening a eq_refl Ha).
  assert (Htb := char_in_all not_backtick json_closing b eq_refl Hb).
  unfold not_space, not_backtick in *.
  apply negb_true_iff in Hsa, Hsb, Hta, Htb.
  apply Ascii.eqb_neq in Hta, Htb. auto 10.
Qed.

(** The cleaning step on a fenced answer: whatever stands between the
    fence markers comes out stripped. *)
Lemma clean_analysis_fenced (ws1 ws2 body : string) :
  all_space ws1 = true -> all_space ws2 = true ->
  CalendarAgent.clean_analysis (ws1 ++ "```json" ++ body ++ "```" ++ ws2) = strip body.
Proof.
  intros H1 H2. unfold CalendarAgent.clean_analysis.
  assert (Hstrip : strip (ws1 ++ "```json" ++ body ++ "```" ++ ws2)
                   = "```json" ++ body ++ "```").
  { replace (ws1 ++ "```json" ++ body ++ "```" ++ ws2)
      with (ws1 ++ ("```json" ++ body ++ "```") ++ ws2)
      by (now rewrite !append_assoc).
    apply strip_wrapped with (a := "`"%char) (b := "`"%char); auto.
    rewrite <- append_assoc. now apply last_char_append. }
  rewrite Hstrip.
  change (startswith "```json" ("```json" ++ body ++ "```")) with
    (startswith "" (body ++ "```")).
  replace (startswith "" (body ++ "```")) with true
    by (unfold startswith; now destruct (body ++ "```")).
  change (drop 7 ("```json" ++ body ++ "```")) with (body ++ "```").
  rewrite endswith_append.
  now rewrite (drop_end_append body "```" : drop_end 3 (body ++ "```") = body).
Qed.

Lemma clean_analysis_bare (ws1 ws2 j : string) :
  all_space ws1 = true -> all_space ws2 = true -> json_text j = true ->
  CalendarAgent.clean_analysis (ws1 ++ j ++ ws2) = j.
Proof.
  intros H1 H2 (a & b & Ha & Hb & Hsa & Hsb & Hta & Htb)%json_text_ends.
  unfold CalendarAgent.clean_analysis.
  rewrite (strip_wrapped ws1 ws2 j a b) by assumption.
  rewrite (startswith_other_first "```json" j "`" a) by (auto; congruence).
  rewrite (endswith_other_last "```" j "`" b) by (auto; congruence).
  replace j with ("" ++ j ++ "") at 1 by (simpl; apply append_nil_r).
  now apply strip_wrapped with (a := a) (b := b).
Qed.

End Cleaning.

(** C9. For a JSON text [j], wrapped in a code fence with any whitespace
    around the fence and around [j], the cleaning step returns [j]
    itself, as it does for the bare [j] with the same whitespace around
    it; so parsing the cleaned fenced answer gives the value of [j], the
    same as parsing the cleaned bare answer. *)
Theorem fence_stripping_roundtrip :
  forall (V : Type) (json_loads : string -> option V) (ws1 ws2 ws3 ws4 j : string),
    PyStr.all_space ws1 = true -> PyStr.all_space ws2 = true ->
    PyStr.all_space ws3 = true -> PyStr.all_space ws4 = true ->
    json_text j = true ->
    let fenced := ws1 ++ "```json" ++ (ws3 ++ j ++ ws4) ++ "```" ++ ws2 in
    let bare := ws3 ++ j ++ ws4 in
    CalendarAgent.clean_analysis fenced = j
    /\ CalendarAgent.clean_analysis bare = j
    /\ json_loads (CalendarAgent.clean_analysis fenced) = json_loads j
    /\ json_loads (CalendarAgent.clean_analysis fenced)
       = json_loads (CalendarAgent.clean_analysis bare).
Proof.
  intros V json_loads ws1 ws2 ws3 ws4 j H1 H2 H3 H4 Hj fenced bare.
  assert (Hf : CalendarAgent.clean_analysis fenced = j).
  { subst fenced. rewrite clean_analysis_fenced by assumption.
    destruct (json_text_ends j Hj) as (a & b & Ha & Hb & Hsa & Hsb & _).
    now apply strip_wrapped with (a := a) (b := b). }
  assert (Hb : CalendarAgent.clean_analysis bare = j).
  { subst bare. now apply clean_analysis_bare. }
  rewrite Hf, Hb. auto.
Qed.

Lemma fence_stripping_roundtrip_witness :
  CalendarAgent.clean_analysis
    (" " ++ "```json" ++ (CalendarAgent.nl ++ sample_json ++ CalendarAgent.nl)
     ++ "```" ++ CalendarAgent.nl)
  = sample_json.
Proof.
  apply (fence_stripping_roundtrip unit (fun _ => None)
           " " CalendarAgent.nl CalendarAgent.nl CalendarAgent.nl sample_json);
    reflexivity.
Defined.

(* ===================================================================== *)
(** * Properties of the intent classifiers *)
(* ===================================================================== *)

Section Classifier.

Import Py CalendarAgent.

Lemma extract_entities_from_params (names : list string)
  (params found : gmap string value) (k : string) :
  is_Some (extract_entities names params found !! k) ->
  is_Some (params !! k) \/ is_Some (found !! k).
Proof.
  revert found. induction names as [| n names IH]; intros found; simpl; [auto |].
  intros Hk. apply IH in Hk as [Hk | Hk]; [now left |].
  destruct (params !! n) as [v |] eqn:En; [| now right].
  destruct (decide (n = k)) as [-> | Hne].
  - left. now rewrite En.
  - right. now rewrite lookup_insert_ne in Hk.
Qed.

Lemma extract_entities_absent (names : list string) (params : gmap string value) (k : string) :
  params !! k = None -> extract_entities names params ∅ !! k = None.
Proof.
  intros Hk. apply eq_None_not_Some. intros Hs.
  apply extract_entities_from_params in Hs as [Hs | Hs].
  - rewrite Hk in Hs. now destruct Hs.
  - rewrite lookup_empty in Hs. now destruct Hs.
Qed.

Lemma missing_entities_none (info : category_info) (found : gmap string value) :
  missing_entities info found = [] ->
  forall req, In req (required info) -> is_Some (found !! req).
Proof.
  unfold missing_entities. induction (required info) as [| r rs IH]; simpl; [tauto |].
  destruct (found !! r) as [v |] eqn:Er; [| discriminate].
  intros Hnil req [<- | Hin]; [rewrite Er; eauto | now apply IH].
Qed.

Lemma missing_entities_some (info : category_info) (found : gmap string value) (req : string) :
  In req (required info) -> found !! req = None ->
  missing_entities info found <> [].
Proof.
  intros Hin Hreq Hnil.
  destruct (missing_entities_none info found Hnil req Hin) as [v Hv]. congruence.
Qed.

(** A returned category was hit by the intent and has all its required
    entities among the parameters. *)
Lemma detect_intent_matched (categories : list (string * category_info))
  (intent : string) (params : gmap string value) (c : string) (found : gmap string value) :
  detect_intent categories intent params ∅ = Some (c, found) ->
  exists info,
    In (c, info) categories
    /\ indicator_hit info intent = true
    /\ found = extract_entities (entities info) params ∅
    /\ forall req, In req (required info) -> is_Some (params !! req).
Proof.
  induction categories as [| [c' info'] rest IH]; simpl; [discriminate |].
  destruct (indicator_hit info' intent) eqn:Ehit.
  - destruct (missing_entities info' (extract_entities (entities info') params ∅)) eqn:Emiss;
      [| discriminate].
    intros [= <- <-]. exists info'. repeat split; auto.
    intros req Hreq.
    destruct (extract_entities_from_params (entities info') params ∅ req) as [Hp | He]; auto.
    + now apply missing_entities_none with (info := info').
    + rewrite lookup_empty in He. now destruct He.
  - intros Hrest. destruct (IH Hrest) as (info & Hin & Hrest'). exists info. auto.
Qed.

(** The first category hit by the intent decides the call. *)
Lemma detect_intent_first_hit (pre post : list (string * category_info))
  (c : string) (info : category_info) (intent : string) (params found : gmap string value) :
  Forall (fun ci => indicator_hit (snd ci) intent = false) pre ->
  indicator_hit info intent = true ->
  detect_intent (pre ++ (c, info) :: post) intent params found
  = match missing_entities info (extract_entities (entities info) params found) with
    | [] => Some (c, extract_entities (entities info) params found)
    | _ :: _ => None
    end.
Proof.
  intros Hpre Hhit. induction Hpre as [| [c' info'] pre Hc' Hpre IH]; simpl.
  - now rewrite Hhit.
  - simpl in Hc'. now rewrite Hc'.
Qed.

Lemma detect_intent_no_fall_through (pre post : list (string * category_info))
  (c : string) (info : category_info) (intent : string) (params : gmap string value)
  (req : string) :
  Forall (fun ci => indicator_hit (snd ci) intent = false) pre ->
  indicator_hit info intent = true ->
  In req (required info) -> params !! req = None ->
  detect_intent (pre ++ (c, info) :: post) intent params ∅ = None.
Proof.
  intros Hpre Hhit Hin Hreq. rewrite detect_intent_first_hit by assumption.
  destruct (missing_entities info (extract_entities (entities info) params ∅)) eqn:Emiss;
    [| reflexivity].
  exfalso. apply (missing_entities_some info _ req Hin) in Emiss; [exact Emiss |].
  now apply extract_entities_absent.
Qed.

Lemma category_info_unique (categories : list (string * category_info))
  (c : string) (i1 i2 : category_info) :
  List.NoDup (map fst categories) ->
  In (c, i1) categories -> In (c, i2) categories -> i1 = i2.
Proof.
  induction categories as [| [c' i'] rest IH]; simpl; [tauto |].
  intros Hnd. inversion Hnd as [| ? ? Hnotin Hnd']; subst.
  intros [E1 | H1] [E2 | H2].
  - congruence.
  - injection E1 as -> ->. exfalso. apply Hnotin.
    change c with (fst (c, i2)). now apply in_map.
  - injection E2 as -> ->. exfalso. apply Hnotin.
    change c with (fst (c, i1)). now apply in_map.
  - now apply IH.
Qed.

Lemma gmail_categories_distinct : List.NoDup (map fst gmail_intent_categories).
Proof. repeat constructor; simpl; intuition discriminate. Qed.

Lemma calendar_categories_distinct : List.NoDup (map fst calendar_intent_categories).
Proof. repeat constructor; simpl; intuition discriminate. Qed.

End Classifier.

(** C4. For both classifiers: a returned category has every one of its
    required entities among the parameters; and when the first category
    whose indicator occurs in the intent misses a required entity, the
    call returns no category, whatever the later categories are. *)
Theorem classifier_required_entities :
  forall (intent : string) (params : gmap string Py.value),
    (forall c info found req,
        (In (c, info) CalendarAgent.gmail_intent_categories
         /\ CalendarAgent._detect_gmail_intent intent params = Some (c, found))
        \/ (In (c, info) CalendarAgent.calendar_intent_categories
            /\ CalendarAgent._detect_calendar_intent intent params = Some (c, found)) ->
        In req (CalendarAgent.required info) ->
        is_Some (params !! req))
    /\ (forall pre c info post req,
          Forall (fun ci => CalendarAgent.indicator_hit (snd ci) intent = false) pre ->
          CalendarAgent.indicator_hit info intent = true ->
          In req (CalendarAgent.required info) ->
          params !! req = None ->
          (CalendarAgent.gmail_intent_categories = (pre ++ (c, info) :: post)%list ->
           CalendarAgent._detect_gmail_intent intent params = None)
          /\ (CalendarAgent.calendar_intent_categories = (pre ++ (c, info) :: post)%list ->
              CalendarAgent._detect_calendar_intent intent params = None)).
Proof.
  intros intent params. split.
  - intros c info found req [[Hin Hdet] | [Hin Hdet]] Hreq;
      apply detect_intent_matched in Hdet as (info' & Hin' & _ & _ & Hall).
    + rewrite (category_info_unique _ c info info' gmail_categories_distinct Hin Hin') in Hreq.
      now apply Hall.
    + rewrite (category_info_unique _ c info info' calendar_categories_distinct Hin Hin') in Hreq.
      now apply Hall.
  - intros pre c info post req Hpre Hhit Hreq Hnone. split; intros Htable.
    + unfold CalendarAgent._detect_gmail_intent. rewrite Htable.
      now apply detect_intent_no_fall_through with (req := req).
    + unfold CalendarAgent._detect_calendar_intent. rewrite Htable.
      now apply detect_intent_no_fall_through with (req := req).
Qed.

Lemma classifier_required_entities_witness :
  CalendarAgent._detect_calendar_intent "schedule and list events" ∅ = None.
Proof.
  refine (proj2 (proj2 (classifier_required_entities "schedule and list events" ∅)
                   [] _ _ _ "event_title" _ _ _ _) eq_refl).
  - constructor.
  - vm_compute. reflexivity.
  - simpl. auto.
  - apply lookup_empty.
Defined.

(* ===================================================================== *)
(** * Properties of the dispatcher *)
(* ===================================================================== *)

Section Routing.

Import Py Eff CalendarAgent.

Lemma any_in_true (patterns : list string) (s : string) :
  PyStr.any_in patterns s = true
  <-> exists k, In k patterns /\ PyStr.contains k s = true.
Proof. unfold PyStr.any_in. apply existsb_exists. Qed.

Lemma any_in_false (patterns : list string) (s : string) :
  PyStr.any_in patterns s = false
  <-> forall k, In k patterns -> PyStr.contains k s = false.
Proof.
  unfold PyStr.any_in. rewrite <- not_true_iff_false, existsb_exists. split.
  - intros Hno k Hk. apply not_true_iff_false. intros Hc. apply Hno. eauto.
  - intros Hall (k & Hk & Hc). rewrite (Hall k Hk) in Hc. discriminate.
Qed.

Lemma route_unfold (handle_calendar : analysis_data -> M string) (w : world)
  (data : analysis_data) (raw user_input : string) (tr : list event) :
  ad_intent data = Some raw ->
  route handle_calendar w data user_input tr
  = match select_domain (PyStr.lower raw) with
    | EmailDomain => _handle_gmail_action w data tr
    | CalendarDomain => handle_calendar data tr
    | GeneralQuestion => _get_ai_response w user_input tr
    end.
Proof.
  intros Hraw. unfold route, bind, lift, key. rewrite Hraw.
  now destruct (select_domain (PyStr.lower raw)).
Qed.

End Routing.

(** C6. When the intent of the parsed analysis contains, case
    insensitively, a keyword of the email set and a keyword of the
    calendar set, the dispatcher runs the email handler; when it
    contains a keyword of neither set, the dispatcher answers with the
    language model's free-text response to the user's input. *)
Theorem email_domain_precedence :
  forall (handle_calendar : CalendarAgent.analysis_data -> Eff.M string)
         (w : Eff.world) (data : CalendarAgent.analysis_data)
         (raw user_input : string) (tr : list Eff.event),
    CalendarAgent.ad_intent data = Some raw ->
    ((exists k, In k CalendarAgent.email_intent_patterns
                /\ PyStr.contains k (PyStr.lower raw) = true) ->
     (exists k, In k CalendarAgent.calendar_intent_patterns
                /\ PyStr.contains k (PyStr.lower raw) = true) ->
     CalendarAgent.select_domain (PyStr.lower raw) = CalendarAgent.EmailDomain
     /\ CalendarAgent.route handle_calendar w data user_input tr
        = CalendarAgent._handle_gmail_action w data tr)
    /\ ((forall k, In k CalendarAgent.email_intent_patterns ->
                   PyStr.contains k (PyStr.lower raw) = false) ->
        (forall k, In k CalendarAgent.calendar_intent_patterns ->
                   PyStr.contains k (PyStr.lower raw) = false) ->
        CalendarAgent.select_domain (PyStr.lower raw) = CalendarAgent.GeneralQuestion
        /\ CalendarAgent.route handle_calendar w data user_input tr
           = CalendarAgent._get_ai_response w user_input tr).
Proof.
  intros handle_calendar w data raw user_input tr Hraw.
  rewrite (route_unfold handle_calendar w data raw user_input tr Hraw). split.
  - intros Hemail _. apply any_in_true in Hemail.
    unfold CalendarAgent.select_domain. rewrite Hemail. auto.
  - intros Hemail Hcal. apply any_in_false in Hemail, Hcal.
    unfold CalendarAgent.select_domain. rewrite Hemail, Hcal. auto.
Qed.

Lemma email_domain_precedence_witness :
  CalendarAgent.select_domain (PyStr.lower "Send an email about the meeting schedule")
  = CalendarAgent.EmailDomain.
Proof.
  apply (proj1 (email_domain_precedence (fun _ => Eff.ret "") declining_world mixed_intent
                  "Send an email about the meeting schedule" "send it" [] eq_refl)).
  - exists "email". split; [simpl; auto | vm_compute; reflexivity].
  - exists "meeting". split; [simpl; auto 10 | vm_compute; reflexivity].
Defined.

(* ===================================================================== *)
(** * Properties of the send flow *)
(* ===================================================================== *)

Section SendFlow.

Import Py Eff CalendarAgent.

(** Without the answer ["y"], [send_email] returns [False] and only
    adds calls of the model, the console and the prompt to the trace. *)
Lemma send_email_declined (w : world) (to subject body : value) (tr : list event) :
  prompt_ask w confirmation_question <> "y" ->
  exists evs,
    send_email w to subject body tr = (inr false, (tr ++ evs)%list)
    /\ Forall (fun ev => is_create_email ev = false) evs.
Proof.
  intros Hno. apply String.eqb_neq in Hno. unfold confirmation_question in Hno.
  unfold send_email, _get_ai_response, catch, bind, lift, emit, ret, raise.
  destruct (len body) as [e | n].
  { exists []. rewrite app_nil_r. split; [reflexivity | constructor]. }
  destruct (chat_completion w (review_prompt to subject body)) as [[m | m | m] | review].
  - exists [ChatCompletion (review_prompt to subject body)]. split; [reflexivity |].
    repeat constructor.
  - exists [ChatCompletion (review_prompt to subject body)].
    destruct (PyStr.contains "context_length_exceeded" m); (split; [reflexivity |]);
      repeat constructor.
  - exists [ChatCompletion (review_prompt to subject body)]. split; [reflexivity |].
    repeat constructor.
  - rewrite Hno.
    exists [ChatCompletion (review_prompt to subject body); ConsolePrint review;
            PromptAsk "Would you like to send this email?"].
    split; [now rewrite <- !app_assoc | repeat constructor].
Qed.

Lemma gmail_send_branch_declined (w : world) (found : gmap string value) (tr : list event) :
  prompt_ask w confirmation_question <> "y" ->
  exists evs,
    gmail_send_branch w found tr = (inr email_not_sent, (tr ++ evs)%list)
    /\ Forall (fun ev => is_create_email ev = false) evs.
Proof.
  intros Hno.
  destruct (send_email_declined w (get found "to") (get found "subject")
              (get found "content") tr Hno) as (evs & Hrun & Hevs).
  exists evs. split; [| exact Hevs].
  unfold gmail_send_branch, catch, bind. now rewrite Hrun.
Qed.

End SendFlow.

(** C8, as stated, fails at the report: a declined send is answered with
    the handler's failure message, the very answer given when the user
    confirms and the backend fails; no call of [create_email] is made
    and nothing distinguishes the cancellation from a failed send. *)
Lemma cancellation_reported_as_failure :
  Eff.run (CalendarAgent._handle_gmail_action declining_world mixed_intent)
  = (inr "## ❌ Failed to Send Email",
     [ Eff.ChatCompletion
         (CalendarAgent.review_prompt (Py.VStr "john@example.com")
            (Py.VStr "Project update") (Py.VStr "The release is on Friday."));
       Eff.ConsolePrint "This email looks appropriate to send.";
       Eff.PromptAsk "Would you like to send this email?" ])
  /\ fst (Eff.run (CalendarAgent._handle_gmail_action failing_backend_world mixed_intent))
     = fst (Eff.run (CalendarAgent._handle_gmail_action declining_world mixed_intent))
  /\ fst (Eff.run (CalendarAgent.send_email failing_backend_world
                     (Py.VStr "john@example.com") (Py.VStr "Project update")
                     (Py.VStr "The release is on Friday.")))
     = fst (Eff.run (CalendarAgent.send_email declining_world
                       (Py.VStr "john@example.com") (Py.VStr "Project update")
                       (Py.VStr "The release is on Friday."))).
Proof. repeat split; vm_compute; reflexivity. Qed.

(** C8, amended. Whenever the answer to the confirmation prompt is not
    ["y"], [send_email] returns [False] without raising and makes no
    call of [create_email], whatever the model's review says, and the
    handler answers with its "Failed to Send Email" message; a call of
    [create_email] in the trace implies the answer ["y"]. *)
Theorem send_requires_confirmation :
  forall (w : Eff.world),
    (Eff.prompt_ask w confirmation_question <> "y" ->
     (forall to subject body : Py.value,
         fst (Eff.run (CalendarAgent.send_email w to subject body)) = inr false
         /\ Forall (fun ev => is_create_email ev = false)
                   (snd (Eff.run (CalendarAgent.send_email w to subject body))))
     /\ (forall found : gmap string Py.value,
           fst (Eff.run (CalendarAgent.gmail_send_branch w found))
           = inr CalendarAgent.email_not_sent
           /\ Forall (fun ev => is_create_email ev = false)
                     (snd (Eff.run (CalendarAgent.gmail_send_branch w found)))))
    /\ (forall (to subject body : Py.value) (ev : Eff.event),
          In ev (snd (Eff.run (CalendarAgent.send_email w to subject body))) ->
          is_create_email ev = true ->
          Eff.prompt_ask w confirmation_question = "y").
Proof.
  intros w. split.
  - intros Hno. split.
    + intros to subject body.
      destruct (send_email_declined w to subject body [] Hno) as (evs & Hrun & Hevs).
      unfold Eff.run. rewrite Hrun. auto.
    + intros found.
      destruct (gmail_send_branch_declined w found [] Hno) as (evs & Hrun & Hevs).
      unfold Eff.run. rewrite Hrun. auto.
  - intros to subject body ev Hin Hcreate.
    destruct (String.eqb_spec (Eff.prompt_ask w confirmation_question) "y") as [Hy | Hno];
      [exact Hy | exfalso].
    destruct (send_email_declined w to subject body [] Hno) as (evs & Hrun & Hevs).
    unfold Eff.run in Hin. rewrite Hrun in Hin. simpl in Hin.
    rewrite Forall_forall in Hevs. apply list_elem_of_In in Hin.
    rewrite (Hevs ev Hin) in Hcreate. discriminate.
Qed.

Lemma send_requires_confirmation_witness :
  fst (Eff.run (CalendarAgent.gmail_send_branch declining_world send_entities))
  = inr CalendarAgent.email_not_sent
  /\ Forall (fun ev => is_create_email ev = false)
            (snd (Eff.run (CalendarAgent.gmail_send_branch declining_world send_entities))).
Proof.
  apply (proj2 (proj1 (send_requires_confirmation declining_world)
                  ltac:(vm_compute; discriminate)) send_entities).
Defined.

(* ===================================================================== *)
(** * Email summarization *)
(* ===================================================================== *)

(** C1, as the code behaves: [get_all_emails] sets [is_read] to the
    presence of the [UNREAD] label, where [get_email] sets it to its
    absence. With three unread emails returned, the summary has
    [total_emails = 3] and the model's text, but [unread_count = 0],
    every fetched email counting as read. *)
Theorem unread_emails_counted_as_read :
  match fst (Eff.run (CalendarAgent.summarize_emails inbox_world (Py.VInt 3))) with
  | inr s =>
      Models.total_emails s = 3
      /\ Models.unread_count s = 0
      /\ map Models.is_read (Models.recent_emails s) = [ true; true; true ]
      /\ Models.summary s = "Three reports arrived."
  | inl _ => False
  end
  /\ match fst (Eff.run (GmailTools.get_email inbox_world "1")) with
     | inr (Some email) => Models.is_read email = false
     | _ => False
     end.
Proof. split; vm_compute; auto. Qed.

(* ===================================================================== *)
(** * Defaults of the event listing *)
(* ===================================================================== *)

(** C7, as the code behaves: the default end date is seven days after
    the current date, whether or not a start date is supplied. With the
    start date 2030-01-01 supplied on 2024-01-15 and no end date, the
    listing is asked for the range 2030-01-01 to 2024-01-22. Without a
    start date the range is today to today plus seven days; the limit
    defaults to 5. *)
Theorem default_end_date_ignores_start_date :
  CalendarAgent.list_events_arguments midday (<["start_date" := Py.VStr "2030-01-01"]> ∅)
  = (Py.VStr "2030-01-01", Py.VStr "2024-01-22", Py.VInt 5)
  /\ CalendarAgent.list_events_arguments midday ∅
     = (Py.VStr "2024-01-15", Py.VStr "2024-01-22", Py.VInt 5).
Proof. split; vm_compute; reflexivity. Qed.

(* ===================================================================== *)
(** * Further properties *)
(* ===================================================================== *)

Section FurtherFreeSlots.

Import Datetime CalendarTools.

Lemma cursor_before_succ (start_time : datetime) (events : list Event) (d : Z)
  (i : nat) (ev : Event) :
  events !! i = Some ev ->
  cursor_before start_time events d (S i) = event_end ev.
Proof.
  intros Hl. unfold cursor_before.
  rewrite (take_S_r events i ev Hl). apply scan_events_cursor_snoc.
Qed.

End FurtherFreeSlots.

(** X1. When the events are ordered by start and their ends are ordered
    the same way (no event ends before an earlier one does), the cursor
    never moves backward from one event to the next, and no returned
    slot overlaps an event: each event ends by the slot's start or
    starts at or after the slot's end. *)
Theorem free_slots_clear_of_events_when_ends_ordered :
  forall (start_time end_time : Datetime.datetime) (events : list CalendarTools.Event)
         (duration_minutes : Z),
    (forall i j a b, (i <= j)%nat -> events !! i = Some a -> events !! j = Some b ->
       CalendarTools.event_start a <= CalendarTools.event_start b
       /\ CalendarTools.event_end a <= CalendarTools.event_end b) ->
    (forall i j a b, (i <= j)%nat -> events !! i = Some a -> events !! j = Some b ->
       cursor_before start_time events duration_minutes (S i)
       <= cursor_before start_time events duration_minutes (S j))
    /\ (forall s ev,
          In s (CalendarTools.free_slots start_time end_time events duration_minutes) ->
          In ev events ->
          CalendarTools.event_end ev <= CalendarTools.slot_start s
          \/ CalendarTools.slot_end s <= CalendarTools.event_start ev).
Proof.
  intros start_time end_time events d Hord. split.
  - intros i j a b Hij Ha Hb.
    rewrite (cursor_before_succ _ _ _ i a Ha), (cursor_before_succ _ _ _ j b Hb).
    now apply (Hord i j a b).
  - intros s ev Hs Hev.
    apply list_elem_of_In, list_elem_of_lookup in Hev as [k Hk].
    assert (Hearlier : forall i, (k < i)%nat -> (i <= List.length events)%nat ->
              CalendarTools.event_end ev <= cursor_before start_time events d i).
    { intros i Hki Hi. destruct i as [| i']; [lia |].
      destruct (lookup_lt_is_Some_2 events i' ltac:(lia)) as [prev Hprev].
      rewrite (cursor_before_succ _ _ _ i' prev Hprev).
      now apply (Hord k i' ev prev ltac:(lia)). }
    apply free_slots_spec in Hs as [(i & at_i & Hi & Hstart & Hend & Hgap) | (Hstart & Hend & Hgap)].
    + destruct (Nat.lt_ge_cases k i) as [Hlt | Hge].
      * left. rewrite Hstart. apply Hearlier; [exact Hlt |].
        apply lookup_lt_Some in Hi. lia.
      * right. destruct (Hord i k at_i ev Hge Hi Hk) as [Hst _]. lia.
    + left. rewrite Hstart. apply Hearlier; [| lia]. now apply lookup_lt_Some in Hk.
Qed.

Lemma free_slots_clear_of_events_when_ends_ordered_witness :
  Forall (fun s =>
            Forall (fun ev =>
                      CalendarTools.event_end ev <= CalendarTools.slot_start s
                      \/ CalendarTools.slot_end s <= CalendarTools.event_start ev)
                   two_meetings)
         (CalendarTools.free_slots (at_ 9 0) (at_ 13 0) two_meetings 30).
Proof.
  apply Forall_forall. intros s Hs. apply Forall_forall. intros ev Hev.
  apply (proj2 (free_slots_clear_of_events_when_ends_ordered
                  (at_ 9 0) (at_ 13 0) two_meetings 30
                  ltac:(intros [| [| i]] [| [| j]] a b Hij Ha Hb; simpl in Ha, Hb;
                        try discriminate; try lia;
                        injection Ha as <-; injection Hb as <-;
                        vm_compute; split; discriminate))
               s ev); now apply list_elem_of_In.
Defined.

Section FurtherSummaries.

Import Py Eff Models GmailTools CalendarAgent.

Lemma fetch_listed_is_read (w : world) (message_id : string) (tr tr' : list event)
  (email : Email) :
  fetch_listed w message_id tr = (inr email, tr') ->
  exists msg, gmail_get w message_id = inr msg /\ is_read email = has_unread_label msg.
Proof.
  unfold fetch_listed, bind, lift, emit, ret.
  destruct (gmail_get w message_id) as [e | msg]; [discriminate |].
  destruct (header "Subject" (headers msg)); [discriminate |].
  destruct (header "From" (headers msg)); [discriminate |].
  destruct (header "To" (headers msg)); [discriminate |].
  destruct (message_content msg); [discriminate |].
  intros [= <- _]. exists msg. auto.
Qed.

Lemma mapM_fetch_listed_is_read (w : world) (listed : list string) :
  (forall message_id msg, gmail_get w message_id = inr msg -> has_unread_label msg = true) ->
  forall (tr tr' : list event) (emails : list Email),
    mapM (fetch_listed w) listed tr = (inr emails, tr') ->
    Forall (fun e => is_read e = true) emails.
Proof.
  intros Hunread. induction listed as [| message_id listed IH]; intros tr tr' emails; simpl.
  - unfold ret. intros [= <- _]. constructor.
  - unfold bind at 1.
    destruct (fetch_listed w message_id tr) as [[e | email] tr1] eqn:Efetch; [discriminate |].
    unfold bind at 1.
    destruct (mapM (fetch_listed w) listed tr1) as [[e | rest] tr2] eqn:Erest; [discriminate |].
    unfold ret. intros [= <- _]. constructor.
    + apply fetch_listed_is_read in Efetch as (msg & Hget & ->). eauto.
    + eauto.
Qed.

Lemma get_all_emails_is_read (w : world) (max_results : value) (unread_only : bool)
  (tr tr' : list event) (emails : list Email) :
  (forall message_id msg, gmail_get w message_id = inr msg -> has_unread_label msg = true) ->
  get_all_emails w max_results unread_only tr = (inr emails, tr') ->
  Forall (fun e => is_read e = true) emails.
Proof.
  intros Hunread. unfold get_all_emails, catch, raise.
  destruct (bind _ _ tr) as [[e | fetched] tr1] eqn:Erun; [discriminate |].
  intros [= <- _]. revert Erun. unfold bind at 1, emit. unfold bind at 1, lift.
  destruct (gmail_list w max_results _) as [e | listed]; [discriminate |].
  now apply mapM_fetch_listed_is_read.
Qed.

Lemma no_unread_among_read (emails : list Email) :
  Forall (fun e => is_read e = true) emails ->
  List.filter (fun e => negb (is_read e)) emails = [].
Proof.
  induction 1 as [| e emails He _ IH]; simpl; [reflexivity |]. now rewrite He.
Qed.

End FurtherSummaries.

(** X2. Whenever every message the backend hands out carries the [UNREAD]
    label, a summary that [summarize_emails] returns counts the emails
    it fetched in [total_emails], at least one, and reports
    [unread_count = 0]. *)
Theorem summary_of_unread_mail_counts_none_unread :
  forall (w : Eff.world) (count : Py.value) (tr tr' : list Eff.event)
         (s : Models.EmailSummary),
    (forall message_id msg,
        Eff.gmail_get w message_id = inr msg -> GmailTools.has_unread_label msg = true) ->
    CalendarAgent.summarize_emails w count tr = (inr s, tr') ->
    Models.unread_count s = 0
    /\ Models.total_emails s = Z.of_nat (List.length (Models.recent_emails s))
    /\ 0 < Models.total_emails s.
Proof.
  intros w count tr tr' s Hunread.
  unfold CalendarAgent.summarize_emails, Eff.catch, Eff.raise. unfold Eff.bind at 1.
  destruct (GmailTools.get_all_emails w count true tr) as [[e | emails] tr1] eqn:Eget;
    [discriminate |].
  apply get_all_emails_is_read in Eget; [| exact Hunread].
  destruct emails as [| email emails]; [discriminate |].
  unfold Eff.bind, Eff.ret.
  destruct (CalendarAgent._get_ai_response w _ tr1) as [[e | text] tr2]; [discriminate |].
  intros [= <- _].
  cbn [Models.unread_count Models.total_emails Models.recent_emails].
  inversion Eget as [| ? ? Hfirst Hrest]; subst.
  rewrite Hfirst. cbn [negb]. rewrite (no_unread_among_read _ Hrest).
  repeat split.
Qed.

Lemma summary_of_unread_mail_counts_none_unread_witness :
  exists s tr',
    Eff.run (CalendarAgent.summarize_emails inbox_world (Py.VInt 3)) = (inr s, tr')
    /\ Models.unread_count s = 0.
Proof.
  eexists. eexists. split; [vm_compute; reflexivity |].
  eapply (summary_of_unread_mail_counts_none_unread inbox_world (Py.VInt 3) []).
  - intros message_id msg [= <-]. reflexivity.
  - vm_compute. reflexivity.
Defined.

(** X3. The defaults of the event listing: without a start date the listing
    starts today; without an end date it ends seven days after today,
    whatever the start date; without a limit it asks for 5 events. *)
Theorem list_events_defaults :
  forall (now : Datetime.datetime) (found : gmap string Py.value),
    let '(start_date, end_date, count) := CalendarAgent.list_events_arguments now found in
    (found !! "start_date" = None -> start_date = Py.VStr (Datetime.strftime_date now))
    /\ (found !! "end_date" = None ->
        end_date = Py.VStr (Datetime.strftime_date (now + Datetime.timedelta_days 7)))
    /\ (found !! "count" = None -> count = Py.VInt 5).
Proof.
  intros now found. unfold CalendarAgent.list_events_arguments, Py.get, Py.get_default.
  repeat split; intros ->; reflexivity.
Qed.

Lemma list_events_defaults_witness :
  CalendarAgent.list_events_arguments midday ∅
  = (Py.VStr (Datetime.strftime_date midday),
     Py.VStr (Datetime.strftime_date (midday + Datetime.timedelta_days 7)),
     Py.VInt 5).
Proof.
  pose proof (list_events_defaults midday ∅) as H.
  destruct (CalendarAgent.list_events_arguments midday ∅) as [[start_date end_date] count].
  destruct H as (Hs & He & Hc).
  now rewrite (Hs (lookup_empty _)), (He (lookup_empty _)), (Hc (lookup_empty _)).
Defined.

(** X4. A model answer that does not parse ends the command with the fixed
    reply asking to rephrase: one call of the model, no handler, no
    second attempt. *)
Theorem malformed_analysis_is_terminal :
  forall (json_loads : string -> option CalendarAgent.analysis_data)
         (handle_calendar : CalendarAgent.analysis_data -> Eff.M string)
         (w : Eff.world) (now : Datetime.datetime) (user_input text : string),
    let prompt := CalendarAgent.analysis_prompt (Datetime.strftime_date now) user_input in
    Eff.chat_completion w prompt = inr text ->
    json_loads (CalendarAgent.clean_analysis text) = None ->
    Eff.run (CalendarAgent._process_command json_loads handle_calendar w now user_input)
    = (inr CalendarAgent.rephrase_reply, [ Eff.ChatCompletion prompt ]).
Proof.
  intros json_loads handle_calendar w now user_input text prompt Hanswer Hparse.
  subst prompt.
  unfold Eff.run, CalendarAgent._process_command, CalendarAgent._get_ai_response,
    Eff.catch, Eff.bind, Eff.emit, Eff.ret, Eff.raise.
  rewrite Hanswer. cbn. now rewrite Hparse.
Qed.

Lemma malformed_analysis_is_terminal_witness :
  fst (Eff.run (CalendarAgent._process_command (fun _ => None) (fun _ => Eff.ret "")
                  declining_world midday "what is on my calendar?"))
  = inr CalendarAgent.rephrase_reply.
Proof.
  rewrite (malformed_analysis_is_terminal (fun _ => None) (fun _ => Eff.ret "")
             declining_world midday "what is on my calendar?"
             "This email looks appropriate to send." eq_refl eq_refl).
  reflexivity.
Defined.

(* ===================================================================== *)
(** * Truncation *)
(* ===================================================================== *)

Section Truncation.

Import PyStr.

#[local] Arguments String.append !_ _ : simpl nomatch.

Lemma length_take (n : nat) (s : string) :
  String.length (take n s) = Nat.min n (String.length s).
Proof.
  revert s. induction n as [| n IH]; intros [| c s]; simpl; auto.
Qed.

Lemma take_all (n : nat) (s : string) :
  (String.length s <= n)%nat -> take n s = s.
Proof.
  revert s. induction n as [| n IH]; intros [| c s]; simpl; auto; try lia.
  intros Hn. rewrite IH by lia. reflexivity.
Qed.

Lemma take_take_append (n : nat) (s t : string) :
  (n <= String.length s)%nat -> take n (take n s ++ t) = take n s.
Proof.
  intros Hn.
  replace n with (String.length (take n s)) at 1 by (rewrite length_take; lia).
  apply take_append.
Qed.

Lemma truncate_email_content_as_text (text : string) :
  CalendarAgent._truncate_email_content text = Utils.truncate_text text 1000.
Proof.
  unfold CalendarAgent._truncate_email_content, Utils.truncate_text, Utils.slice_to.
  destruct (Nat.leb_spec (String.length text) 1000) as [Hle | Hgt];
    destruct (Z.leb_spec (Z.of_nat (String.length text)) 1000) as [Hle' | Hgt'];
    try lia; reflexivity.
Qed.

End Truncation.

(** X5. For a limit that is not negative, [truncate_text] returns the
    text itself when it fits and otherwise its first [max_length]
    characters followed by three dots, which is [max_length + 3]
    characters; truncating the result again changes nothing. *)
Theorem truncate_text_bounded_and_idempotent :
  forall (text : string) (max_length : Z),
    0 <= max_length ->
    let short := Utils.truncate_text text max_length in
    (Z.of_nat (String.length text) <= max_length -> short = text)
    /\ (max_length < Z.of_nat (String.length text) ->
        short = PyStr.take (Z.to_nat max_length) text ++ "..."
        /\ Z.of_nat (String.length short) = max_length + 3)
    /\ Z.of_nat (String.length short) <= max_length + 3
    /\ Utils.truncate_text short max_length = short.
Proof.
  intros text m Hm short.
  assert (Hfits : forall t, Z.of_nat (String.length t) <= m -> Utils.truncate_text t m = t).
  { intros t Ht. unfold Utils.truncate_text.
    destruct (Z.leb_spec (Z.of_nat (String.length t)) m); [reflexivity | lia]. }
  assert (Hcuts : forall t, m < Z.of_nat (String.length t) ->
            Utils.truncate_text t m = PyStr.take (Z.to_nat m) t ++ "...").
  { intros t Ht. unfold Utils.truncate_text, Utils.slice_to.
    destruct (Z.leb_spec (Z.of_nat (String.length t)) m); [lia |].
    destruct (Z.leb_spec 0 m); [reflexivity | lia]. }
  destruct (Z.le_gt_cases (Z.of_nat (String.length text)) m) as [Hfit | Hlong].
  - assert (Hs : short = text) by (apply Hfits; exact Hfit).
    rewrite Hs. split; [reflexivity |]. split; [lia |]. split; [lia |].
    now apply Hfits.
  - assert (Hs : short = PyStr.take (Z.to_nat m) text ++ "...") by (apply Hcuts; lia).
    assert (Hlen : String.length (PyStr.take (Z.to_nat m) text ++ "...")
                   = (Z.to_nat m + 3)%nat).
    { rewrite length_append, length_take. simpl. lia. }
    rewrite Hs. split; [lia |]. split; [intros _; split; [reflexivity | lia] |].
    split; [lia |].
    rewrite Hcuts by lia. rewrite take_take_append by lia. reflexivity.
Qed.

Lemma truncate_text_bounded_and_idempotent_witness :
  Utils.truncate_text "Quarterly report attached" 9 = "Quarterly..."
  /\ Utils.truncate_text "Quarterly..." 9 = "Quarterly...".
Proof.
  destruct (truncate_text_bounded_and_idempotent "Quarterly report attached" 9
              ltac:(lia)) as (_ & Hcut & _ & Hagain).
  destruct (Hcut ltac:(vm_compute; reflexivity)) as [Heq _].
  assert (E : Utils.truncate_text "Quarterly report attached" 9 = "Quarterly...")
    by (rewrite Heq; reflexivity).
  split; [exact E | rewrite <- E; exact Hagain].
Defined.

(** X6. The content an email contributes to the summary prompt is the
    email's content when it has at most 1000 characters and never more
    than 1003 characters; truncating it again changes nothing. *)
Theorem truncate_email_content_bounded :
  forall text : string,
    (String.length (CalendarAgent._truncate_email_content text) <= 1003)%nat
    /\ ((String.length text <= 1000)%nat ->
        CalendarAgent._truncate_email_content text = text)
    /\ ((1000 < String.length text)%nat ->
        CalendarAgent._truncate_email_content text = PyStr.take 1000 text ++ "...")
    /\ CalendarAgent._truncate_email_content (CalendarAgent._truncate_email_content text)
       = CalendarAgent._truncate_email_content text.
Proof.
  intros text. rewrite !truncate_email_content_as_text.
  destruct (truncate_text_bounded_and_idempotent text 1000 ltac:(lia))
    as (Hfit & Hcut & Hlen & Hagain).
  split; [lia |]. split; [intros H; apply Hfit; lia |].
  split; [intros H; apply Hcut; lia | exact Hagain].
Qed.

(* ===================================================================== *)
(** * The classifiers: what is returned *)
(* ===================================================================== *)

Section ClassifierResults.

Import Py CalendarAgent.

Lemma extract_entities_keeps (names : list string) (params found : gmap string value)
  (k : string) (v : value) :
  found !! k = Some v -> params !! k = Some v ->
  extract_entities names params found !! k = Some v.
Proof.
  revert found. induction names as [| n names IH]; intros found Hf Hp; simpl; [exact Hf |].
  apply IH; [| exact Hp].
  destruct (params !! n) as [x |] eqn:En; [| exact Hf].
  destruct (decide (n = k)) as [-> | Hne].
  - rewrite lookup_insert_eq. congruence.
  - now rewrite lookup_insert_ne.
Qed.

Lemma extract_entities_takes (names : list string) (params found : gmap string value)
  (k : string) (v : value) :
  In k names -> params !! k = Some v ->
  extract_entities names params found !! k = Some v.
Proof.
  revert found. induction names as [| n names IH]; intros found Hin Hp; simpl; [destruct Hin |].
  destruct Hin as [-> | Hin]; [| now apply IH].
  rewrite Hp. apply extract_entities_keeps; [apply lookup_insert_eq | exact Hp].
Qed.

Lemma extract_entities_origin (names : list string) (params found : gmap string value)
  (k : string) (v : value) :
  extract_entities names params found !! k = Some v ->
  (In k names /\ params !! k = Some v) \/ found !! k = Some v.
Proof.
  revert found. induction names as [| n names IH]; intros found; simpl; [auto |].
  intros Hk. apply IH in Hk as [[Hin Hp] | Hf]; [left; auto |].
  destruct (params !! n) as [x |] eqn:En; [| now right].
  destruct (decide (n = k)) as [-> | Hne].
  - rewrite lookup_insert_eq in Hf. left. split; [now left | congruence].
  - rewrite lookup_insert_ne in Hf by exact Hne. now right.
Qed.

(** The entities found for a category are the parameters under the
    category's recognized names. *)
Lemma extract_entities_projection (names : list string) (params : gmap string value)
  (k : string) (v : value) :
  extract_entities names params ∅ !! k = Some v
  <-> In k names /\ params !! k = Some v.
Proof.
  split.
  - intros [H | H]%extract_entities_origin; [exact H |]. now rewrite lookup_empty in H.
  - intros [Hin Hp]. now apply extract_entities_takes.
Qed.

Lemma missing_entities_all_present (info : category_info) (found : gmap string value) :
  (forall req, In req (required info) -> is_Some (found !! req)) ->
  missing_entities info found = [].
Proof.
  unfold missing_entities. induction (required info) as [| r rs IH]; simpl; [reflexivity |].
  intros Hall. destruct (Hall r (or_introl eq_refl)) as [v ->]. apply IH. auto.
Qed.

(** A returned category is preceded only by categories the intent did
    not hit. *)
Lemma detect_intent_split (categories : list (string * category_info))
  (intent : string) (params found0 : gmap string value) (c : string)
  (found : gmap string value) :
  detect_intent categories intent params found0 = Some (c, found) ->
  exists pre info post,
    categories = (pre ++ (c, info) :: post)%list
    /\ Forall (fun ci => indicator_hit (snd ci) intent = false) pre
    /\ indicator_hit info intent = true.
Proof.
  induction categories as [| [c' info'] rest IH]; simpl; [discriminate |].
  destruct (indicator_hit info' intent) eqn:Ehit.
  - destruct (missing_entities info' _); [| discriminate].
    intros [= <- <-]. exists [], info', rest. auto.
  - intros (pre & info & post & -> & Hpre & Hhit)%IH.
    exists ((c', info') :: pre), info, post. repeat split; auto.
Qed.

End ClassifierResults.

(** X7. For the loop both classifiers run over their tables: a category
    is returned exactly when it is the first category of the table one
    of whose indicators occurs in the lower-cased intent and each of its
    required entities is a key of the parameters; the entities returned
    with it are then exactly the parameters under the category's
    recognized entity names. *)
Theorem classification_is_first_hit_projection :
  forall (categories : list (string * CalendarAgent.category_info))
         (intent : string) (params : gmap string Py.value)
         (c : string) (found : gmap string Py.value),
    CalendarAgent.detect_intent categories intent params ∅ = Some (c, found)
    <-> exists pre info post,
          categories = (pre ++ (c, info) :: post)%list
          /\ Forall (fun ci => CalendarAgent.indicator_hit (snd ci) intent = false) pre
          /\ CalendarAgent.indicator_hit info intent = true
          /\ (forall req, In req (CalendarAgent.required info) -> is_Some (params !! req))
          /\ (forall req, In req (CalendarAgent.required info) ->
                In req (CalendarAgent.entities info))
          /\ found = CalendarAgent.extract_entities (CalendarAgent.entities info) params ∅
          /\ (forall k v, found !! k = Some v
                <-> In k (CalendarAgent.entities info) /\ params !! k = Some v).
Proof.
  intros categories intent params c found. split.
  - intros Hdet.
    destruct (detect_intent_split _ _ _ _ _ _ Hdet) as (pre & info & post & Hcat & Hpre & Hhit).
    exists pre, info, post. split; [exact Hcat |]. split; [exact Hpre |].
    split; [exact Hhit |].
    rewrite Hcat, (detect_intent_first_hit pre post c info intent params ∅ Hpre Hhit) in Hdet.
    destruct (CalendarAgent.missing_entities info _) eqn:Emiss; [| discriminate].
    injection Hdet as <-.
    assert (Hreq : forall req, In req (CalendarAgent.required info) ->
              is_Some (CalendarAgent.extract_entities (CalendarAgent.entities info) params ∅ !! req))
      by (now apply missing_entities_none).
    split; [| split; [| split; [reflexivity |]]].
    + intros req Hin. destruct (Hreq req Hin) as [v Hv].
      apply extract_entities_projection in Hv as [_ Hv]. eauto.
    + intros req Hin. destruct (Hreq req Hin) as [v Hv].
      now apply extract_entities_projection in Hv as [Hv _].
    + intros k v. apply extract_entities_projection.
  - intros (pre & info & post & -> & Hpre & Hhit & Hreq & Hrec & -> & _).
    rewrite (detect_intent_first_hit pre post c info intent params ∅ Hpre Hhit).
    rewrite missing_entities_all_present; [reflexivity |].
    intros req Hin. destruct (Hreq req Hin) as [v Hv]. exists v.
    apply extract_entities_projection. auto.
Qed.

Section PromptFormat.

Import Py CalendarAgent.

(** Every key of the answer format stands, between double quotes and
    followed by a colon, in the prompt. *)
Lemma prompt_parameter_keys_in_prompt :
  forallb (fun k => PyStr.contains (dq ++ k ++ dq ++ ":")
                      (analysis_prompt "2024-01-15" "When am I free tomorrow?"))
          prompt_parameter_keys = true.
Proof. vm_compute. reflexivity. Qed.

End PromptFormat.

(** X8. When the parameters have no keys but those of the answer format
    the prompt asks for, the email classifier returns no category other
    than [summarize] and the calendar classifier none other than
    [create] and [list]: [send], [retrieve] and [availability] require
    entities ([to], [subject], [content], [email_id], [duration]) that
    the format does not name. *)
Theorem prompt_format_reaches_three_categories :
  forall (intent : string) (params : gmap string Py.value),
    (forall k, is_Some (params !! k) -> In k prompt_parameter_keys) ->
    (forall c found,
        CalendarAgent._detect_gmail_intent intent params = Some (c, found) ->
        c = "summarize")
    /\ (forall c found,
          CalendarAgent._detect_calendar_intent intent params = Some (c, found) ->
          c = "create" \/ c = "list").
Proof.
  intros intent params Hkeys.
  assert (Hno : forall k, ~ In k prompt_parameter_keys -> ~ is_Some (params !! k))
    by (intros k Hk Hs; auto).
  split; intros c found Hdet;
    apply detect_intent_matched in Hdet as (info & Hin & _ & _ & Hreq);
    simpl in Hin; destruct Hin as [[= <- <-] | [[= <- <-] | [[= <- <-] | []]]]; auto.
  - exfalso. apply (Hno "to"); [| apply Hreq; simpl; auto].
    simpl. intuition discriminate.
  - exfalso. apply (Hno "email_id"); [| apply Hreq; simpl; auto].
    simpl. intuition discriminate.
  - exfalso. apply (Hno "duration"); [| apply Hreq; simpl; auto].
    simpl. intuition discriminate.
Qed.

Lemma prompt_format_reaches_three_categories_witness :
  CalendarAgent._detect_calendar_intent "find available time" availability_parameters = None.
Proof.
  destruct (CalendarAgent._detect_calendar_intent "find available time" availability_parameters)
    as [[c found] |] eqn:Edet; [exfalso | reflexivity].
  destruct (proj2 (prompt_format_reaches_three_categories "find available time"
                     availability_parameters
                     ltac:(intros k [v Hk]; unfold availability_parameters in Hk;
                           repeat (apply lookup_insert_Some in Hk as [[<- _] | [_ Hk]];
                                   [simpl; auto 10 |]);
                           rewrite lookup_empty in Hk; discriminate))
              c found Edet) as [-> | ->];
    vm_compute in Edet; discriminate.
Defined.

(* ===================================================================== *)
(** * The mailbox tools *)
(* ===================================================================== *)

Section MailboxTools.

Import Py Eff Models GmailTools.

Lemma fetch_listed_fails (w : world) (message_id : string) (tr : list event) :
  fetches w message_id = false ->
  exists e, fetch_listed w message_id tr = (inl e, (tr ++ [GmailGet message_id])%list).
Proof.
  unfold fetches, message_complete, fetch_listed, bind, lift, emit, ret.
  destruct (gmail_get w message_id) as [e | msg]; [eauto |].
  destruct (header "Subject" (headers msg)); [eauto |].
  destruct (header "From" (headers msg)); [eauto |].
  destruct (header "To" (headers msg)); [eauto |].
  destruct (message_content msg); [eauto | discriminate].
Qed.

Lemma fetch_listed_succeeds (w : world) (message_id : string) (tr : list event) :
  fetches w message_id = true ->
  exists email,
    fetch_listed w message_id tr = (inr email, (tr ++ [GmailGet message_id])%list)
    /\ id email = message_id.
Proof.
  unfold fetches, message_complete, fetch_listed, bind, lift, emit, ret.
  destruct (gmail_get w message_id) as [e | msg]; [discriminate |].
  destruct (header "Subject" (headers msg)); [discriminate |].
  destruct (header "From" (headers msg)); [discriminate |].
  destruct (header "To" (headers msg)); [discriminate |].
  destruct (message_content msg); [discriminate |]. eauto.
Qed.

Lemma mapM_fetch_listed_all (w : world) (listed : list string) (tr : list event) :
  forallb (fetches w) listed = true ->
  exists emails,
    mapM (fetch_listed w) listed tr = (inr emails, (tr ++ map GmailGet listed)%list)
    /\ map id emails = listed.
Proof.
  revert tr. induction listed as [| message_id listed IH]; intros tr; simpl.
  - intros _. exists []. rewrite app_nil_r. auto.
  - intros [Hfirst Hrest]%andb_prop.
    destruct (fetch_listed_succeeds w message_id tr Hfirst) as (email & Hrun & Hid).
    destruct (IH (tr ++ [GmailGet message_id])%list Hrest) as (emails & Hruns & Hids).
    exists (email :: emails). unfold bind at 1. rewrite Hrun.
    unfold bind at 1. rewrite Hruns. unfold ret. simpl.
    rewrite <- app_assoc, Hid, Hids. auto.
Qed.

Lemma mapM_fetch_listed_some_fails (w : world) (listed : list string) (tr : list event) :
  forallb (fetches w) listed = false ->
  exists e tr', mapM (fetch_listed w) listed tr = (inl e, tr').
Proof.
  revert tr. induction listed as [| message_id listed IH]; intros tr; simpl; [discriminate |].
  destruct (fetches w message_id) eqn:Efirst; simpl.
  - intros Hrest.
    destruct (fetch_listed_succeeds w message_id tr Efirst) as (email & Hrun & _).
    destruct (IH (tr ++ [GmailGet message_id])%list Hrest) as (e & tr' & Hruns).
    exists e, tr'. unfold bind at 1. rewrite Hrun. unfold bind at 1. now rewrite Hruns.
  - intros _. destruct (fetch_listed_fails w message_id tr Efirst) as (e & Hrun).
    exists e, (tr ++ [GmailGet message_id])%list. unfold bind at 1. now rewrite Hrun.
Qed.

Lemma get_all_emails_unfold (w : world) (max_results : value) (unread_only : bool)
  (tr : list event) :
  get_all_emails w max_results unread_only tr
  = match gmail_list w max_results (mailbox_query unread_only) with
    | inl e => (inl e, (tr ++ [GmailList max_results (mailbox_query unread_only)])%list)
    | inr listed =>
        mapM (fetch_listed w) listed
             (tr ++ [GmailList max_results (mailbox_query unread_only)])%list
    end.
Proof.
  unfold get_all_emails, mailbox_query, catch, raise, bind, emit, lift.
  destruct (gmail_list w max_results _) as [e | listed]; [reflexivity |].
  now destruct (mapM (fetch_listed w) listed _) as [[e | emails] tr'].
Qed.

End MailboxTools.



Section ReadFlag.

Import Py Eff Models GmailTools.

(** The same email with the read flag inverted. *)
Lemma fetch_listed_against_get_email (w : world) (message_id : string)
  (tr tr' tr2 : list event) (email : Email) :
  fetch_listed w message_id tr = (inr email, tr') ->
  get_email w message_id tr2
  = (inr (Some {| id := id email;
                  subject := subject email;
                  sender := sender email;
                  recipient := recipient email;
                  content := content email;
                  timestamp := timestamp email;
                  is_read := negb (is_read email);
                  attachments := attachments email |}),
     (tr2 ++ [GmailGet message_id])%list).
Proof.
  unfold fetch_listed, get_email, catch, bind, lift, emit, ret.
  destruct (gmail_get w message_id) as [e | msg]; [discriminate |].
  destruct (header "Subject" (headers msg)); [discriminate |].
  destruct (header "From" (headers msg)); [discriminate |].
  destruct (header "To" (headers msg)); [discriminate |].
  destruct (message_content msg); [discriminate |].
  intros [= <- _]. reflexivity.
Qed.

Lemma mapM_fetch_listed_member (w : world) (listed : list string) :
  forall (tr tr' : list event) (emails : list Email) (email : Email),
    mapM (fetch_listed w) listed tr = (inr emails, tr') ->
    In email emails ->
    exists tr0 tr1, fetch_listed w (id email) tr0 = (inr email, tr1).
Proof.
  induction listed as [| message_id listed IH]; intros tr tr' emails email; simpl.
  - unfold ret. intros [= <- _] [].
  - unfold bind at 1.
    destruct (fetch_listed w message_id tr) as [[e | first] tr1] eqn:Efirst; [discriminate |].
    unfold bind at 1.
    destruct (mapM (fetch_listed w) listed tr1) as [[e | rest] tr2] eqn:Erest; [discriminate |].
    unfold ret. intros [= <- _] [<- | Hin].
    + exists tr, tr1.
      assert (Hid : id first = message_id).
      { revert Efirst. unfold fetch_listed, bind, lift, emit, ret.
        destruct (gmail_get w message_id) as [e | msg]; [discriminate |].
        destruct (header "Subject" (headers msg)); [discriminate |].
        destruct (header "From" (headers msg)); [discriminate |].
        destruct (header "To" (headers msg)); [discriminate |].
        destruct (message_content msg); [discriminate |].
        now intros [= <- _]. }
      now rewrite Hid.
    + eauto.
Qed.

End ReadFlag.

(** X10. The two ways of reading a message disagree on the read flag.
    For every email that [get_all_emails] returns, [get_email] on the
    same id returns the same email (subject, sender, recipient, content
    and timestamp) with [is_read] inverted. *)
Theorem read_flag_inverted_between_listing_and_lookup :
  forall (w : Eff.world) (max_results : Py.value) (unread_only : bool)
         (tr tr' tr2 : list Eff.event) (emails : list Models.Email)
         (email : Models.Email),
    GmailTools.get_all_emails w max_results unread_only tr = (inr emails, tr') ->
    In email emails ->
    exists single,
      GmailTools.get_email w (Models.id email) tr2
      = (inr (Some single), (tr2 ++ [Eff.GmailGet (Models.id email)])%list)
      /\ Models.is_read single = negb (Models.is_read email)
      /\ Models.id single = Models.id email
      /\ Models.subject single = Models.subject email
      /\ Models.sender single = Models.sender email
      /\ Models.recipient single = Models.recipient email
      /\ Models.content single = Models.content email
      /\ Models.timestamp single = Models.timestamp email.
Proof.
  intros w max_results unread_only tr tr' tr2 emails email Hrun Hin.
  rewrite get_all_emails_unfold in Hrun.
  destruct (Eff.gmail_list w max_results (mailbox_query unread_only)) as [e | listed];
    [discriminate |].
  destruct (mapM_fetch_listed_member w listed _ _ _ _ Hrun Hin) as (tr0 & tr1 & Hfetch).
  eexists. split; [apply (fetch_listed_against_get_email w _ tr0 tr1 tr2 email Hfetch) |].
  repeat split.
Qed.

Lemma read_flag_inverted_between_listing_and_lookup_witness :
  exists emails tr',
    Eff.run (GmailTools.get_all_emails inbox_world (Py.VInt 3) true) = (inr emails, tr')
    /\ Forall (fun email =>
                 exists single tr2,
                   Eff.run (GmailTools.get_email inbox_world (Models.id email))
                   = (inr (Some single), tr2)
                   /\ Models.is_read single = negb (Models.is_read email))
              emails.
Proof.
  eexists. eexists. split; [vm_compute; reflexivity |].
  apply Forall_forall. intros email Hin.
  destruct (read_flag_inverted_between_listing_and_lookup inbox_world (Py.VInt 3) true
              [] _ [] _ email ltac:(vm_compute; reflexivity)
              ltac:(now apply list_elem_of_In))
    as (single & Hget & Hflag & _).
  exists single. eexists. split; [exact Hget | exact Hflag].
Defined.

(* ===================================================================== *)
(** * The email branches *)
(* ===================================================================== *)

Section EmailBranches.

Import Py Eff Models CalendarAgent.

Lemma get_ai_response_run (w : world) (prompt : string) (tr : list event) :
  _get_ai_response w prompt tr
  = (gateway_result (chat_completion w prompt), (tr ++ [ChatCompletion prompt])%list).
Proof.
  unfold _get_ai_response, gateway_result, bind, emit, ret, raise.
  destruct (chat_completion w prompt) as [[m | m | c m] | text]; try reflexivity.
  now destruct (PyStr.contains "context_length_exceeded" m).
Qed.

Lemma summarize_emails_unfold (w : world) (count : value) (tr : list event) :
  summarize_emails w count tr
  = match GmailTools.get_all_emails w count true tr with
    | (inl e, tr1) => (inl e, tr1)
    | (inr [], tr1) =>
        (inl (ValueError "No emails were retrieved. Please check your Gmail API access."), tr1)
    | (inr (email :: emails), tr1) =>
        match gateway_result (chat_completion w (summary_prompt (email :: emails))) with
        | inl e => (inl e, (tr1 ++ [ChatCompletion (summary_prompt (email :: emails))])%list)
        | inr text =>
            (inr {| total_emails := Z.of_nat (List.length (email :: emails));
                    unread_count :=
                      Z.of_nat (List.length
                                  (List.filter (fun e => negb (is_read e)) (email :: emails)));
                    recent_emails := email :: emails;
                    summary := text |},
             (tr1 ++ [ChatCompletion (summary_prompt (email :: emails))])%list)
        end
    end.
Proof.
  unfold summarize_emails, catch, raise. unfold bind at 1.
  destruct (GmailTools.get_all_emails w count true tr) as [[e | [| email emails]] tr1];
    try reflexivity.
  unfold bind. rewrite get_ai_response_run.
  now destruct (gateway_result _).
Qed.

End EmailBranches.

(** X11. With nothing to summarize, no summary is invented: when the
    listing of unread mail is empty, the [summarize] branch answers
    that no emails were retrieved and the model is not called; when the
    listing itself fails, the branch answers with the failure's text.
    In both cases the only call made is the listing. *)
Theorem summarize_without_mail_asks_no_model :
  forall (w : Eff.world) (found : gmap string Py.value) (tr : list Eff.event),
    let count := Py.get_default found "count" (Py.VInt 5) in
    (Eff.gmail_list w count "is:unread" = inr [] ->
     CalendarAgent.gmail_summarize w found tr
     = (inr "I encountered an error while summarizing emails: No emails were retrieved. Please check your Gmail API access.",
        (tr ++ [ Eff.GmailList count "is:unread" ])%list))
    /\ (forall e,
          Eff.gmail_list w count "is:unread" = inl e ->
          CalendarAgent.gmail_summarize w found tr
          = (inr (match e with
                  | Py.ValueError msg =>
                      "I encountered an error while summarizing emails: " ++ msg
                  | _ =>
                      "I encountered an unexpected error while summarizing emails: "
                      ++ Py.exn_str e
                  end),
             (tr ++ [ Eff.GmailList count "is:unread" ])%list)).
Proof.
  intros w found tr count. subst count. split.
  - intros Hlist. unfold CalendarAgent.gmail_summarize, Eff.catch. unfold Eff.bind at 1.
    rewrite summarize_emails_unfold, get_all_emails_unfold. unfold mailbox_query.
    rewrite Hlist. reflexivity.
  - intros e Hlist. unfold CalendarAgent.gmail_summarize, Eff.catch. unfold Eff.bind at 1.
    rewrite summarize_emails_unfold, get_all_emails_unfold. unfold mailbox_query.
    rewrite Hlist. now destruct e.
Qed.

Lemma summarize_without_mail_asks_no_model_witness :
  Eff.run (CalendarAgent.gmail_summarize empty_inbox_world ∅)
  = (inr "I encountered an error while summarizing emails: No emails were retrieved. Please check your Gmail API access.",
     [ Eff.GmailList (Py.VInt 5) "is:unread" ]).
Proof.
  exact (proj1 (summarize_without_mail_asks_no_model empty_inbox_world ∅ []) eq_refl).
Defined.

(** X12. The [retrieve] branch: an email id that is empty, null or
    otherwise false is answered with the request for an id and no call
    is made; when the backend does not deliver the message, or delivers
    it incomplete, the answer is that the email was not found, after
    the one fetch. *)
Theorem retrieve_without_email :
  forall (w : Eff.world) (found : gmap string Py.value) (tr : list Eff.event),
    let email_id := Py.get found "email_id" in
    (Py.truthy email_id = false ->
     CalendarAgent.gmail_retrieve w found tr
     = (inr "Please provide an email ID to retrieve.", tr))
    /\ (Py.truthy email_id = true ->
        fetches w (Py.str email_id) = false ->
        CalendarAgent.gmail_retrieve w found tr
        = (inr "## ❌ Email Not Found", (tr ++ [ Eff.GmailGet (Py.str email_id) ])%list)).
Proof.
  intros w found tr email_id. subst email_id. split.
  - intros Hfalse. unfold CalendarAgent.gmail_retrieve, Eff.catch, Eff.ret.
    now rewrite Hfalse.
  - intros Htrue Hbad.
    unfold CalendarAgent.gmail_retrieve, CalendarAgent.get_specific_email,
      GmailTools.get_email.
    rewrite Htrue. cbn [negb].
    unfold fetches, message_complete in Hbad.
    unfold Eff.catch, Eff.bind, Eff.lift, Eff.emit, Eff.ret.
    destruct (Eff.gmail_get w (Py.str (Py.get found "email_id"))) as [e | msg];
      [reflexivity |].
    destruct (GmailTools.header "Subject" (Eff.headers msg)); [reflexivity |].
    destruct (GmailTools.header "From" (Eff.headers msg)); [reflexivity |].
    destruct (GmailTools.header "To" (Eff.headers msg)); [reflexivity |].
    destruct (GmailTools.message_content msg); [reflexivity | discriminate].
Qed.

Lemma retrieve_without_email_witness :
  Eff.run (CalendarAgent.gmail_retrieve declining_world retrieve_entities)
  = (inr "## ❌ Email Not Found", [ Eff.GmailGet "abc123" ]).
Proof.
  exact (proj2 (retrieve_without_email declining_world retrieve_entities []) eq_refl eq_refl).
Defined.

(** X13. The send flow beyond the refusal. When the model's review
    cannot be obtained, [send_email] returns [False] after that one
    call: nothing is shown, the user is not asked, nothing is sent.
    When the review is obtained and the user answers ["y"], the review
    is printed, the question asked, [create_email] called once with the
    given recipient, subject and content, and the result is [True]
    exactly when the backend accepted the message. *)
Theorem send_email_after_review :
  forall (w : Eff.world) (to subject body : Py.value) (n : Z) (tr : list Eff.event),
    Py.len body = inr n ->
    let prompt := CalendarAgent.review_prompt to subject body in
    (forall e,
        gateway_result (Eff.chat_completion w prompt) = inl e ->
        CalendarAgent.send_email w to subject body tr
        = (inr false, (tr ++ [ Eff.ChatCompletion prompt ])%list))
    /\ (forall review,
          gateway_result (Eff.chat_completion w prompt) = inr review ->
          Eff.prompt_ask w confirmation_question = "y" ->
          CalendarAgent.send_email w to subject body tr
          = (inr (match Eff.gmail_send w to subject body with
                  | inr _ => true
                  | inl _ => false
                  end),
             (tr ++ [ Eff.ChatCompletion prompt;
                      Eff.ConsolePrint review;
                      Eff.PromptAsk confirmation_question;
                      Eff.GmailCreateEmail to subject body ])%list)).
Proof.
  intros w to subject body n tr Hlen prompt. subst prompt. split.
  - intros e Hgate.
    unfold CalendarAgent.send_email, Eff.catch. unfold Eff.bind at 1, Eff.lift.
    rewrite Hlen. unfold Eff.bind at 1. unfold Eff.bind at 1.
    rewrite get_ai_response_run, Hgate. reflexivity.
  - intros review Hgate Hyes. unfold confirmation_question in Hyes.
    unfold CalendarAgent.send_email, Eff.catch. unfold Eff.bind at 1, Eff.lift.
    rewrite Hlen. unfold Eff.bind at 1. unfold Eff.bind at 1.
    rewrite get_ai_response_run, Hgate.
    unfold Eff.ret, Eff.bind, Eff.emit. rewrite Hyes. cbn [String.eqb Ascii.eqb Bool.eqb].
    unfold GmailTools.create_email, Eff.bind, Eff.emit, Eff.catch, Eff.lift, Eff.ret.
    rewrite <- !app_assoc.
    now destruct (Eff.gmail_send w to subject body).
Qed.

Lemma send_email_after_review_witness :
  Eff.run (CalendarAgent.send_email confirming_world (Py.VStr "john@example.com")
             (Py.VStr "Project update") (Py.VStr "The release is on Friday."))
  = (inr true,
     [ Eff.ChatCompletion
         (CalendarAgent.review_prompt (Py.VStr "john@example.com")
            (Py.VStr "Project update") (Py.VStr "The release is on Friday."));
       Eff.ConsolePrint "This email looks appropriate to send.";
       Eff.PromptAsk confirmation_question;
       Eff.GmailCreateEmail (Py.VStr "john@example.com") (Py.VStr "Project update")
         (Py.VStr "The release is on Friday.") ]).
Proof.
  exact (proj2 (send_email_after_review confirming_world (Py.VStr "john@example.com")
                  (Py.VStr "Project update") (Py.VStr "The release is on Friday.")
                  25 [] eq_refl)
           "This email looks appropriate to send." eq_refl eq_refl).
Defined.

(* ===================================================================== *)
(** * The dispatcher: failures and the general question *)
(* ===================================================================== *)

Section CommandFailures.

Import Py Eff CalendarAgent.

Variable json_loads : string -> option analysis_data.
Variable handle_calendar : analysis_data -> M string.

Lemma process_command_unfold (w : world) (now : Datetime.datetime) (user_input : string)
  (tr : list event) :
  let prompt := analysis_prompt (Datetime.strftime_date now) user_input in
  _process_command json_loads handle_calendar w now user_input tr
  = match gateway_result (chat_completion w prompt) with
    | inl (ValueError msg) =>
        (inr ("I encountered an error analyzing your request: " ++ msg),
         (tr ++ [ChatCompletion prompt])%list)
    | inl _ =>
        (inr "I encountered an error processing your command.",
         (tr ++ [ChatCompletion prompt])%list)
    | inr analysis =>
        match json_loads (clean_analysis analysis) with
        | None => (inr rephrase_reply, (tr ++ [ChatCompletion prompt])%list)
        | Some data =>
            match route handle_calendar w data user_input
                    (tr ++ [ChatCompletion prompt])%list with
            | (inl _, tr') => (inr rephrase_reply, tr')
            | (inr reply, tr') => (inr reply, tr')
            end
        end
    end.
Proof.
  intros prompt. subst prompt.
  unfold _process_command, catch. unfold bind at 1. unfold bind at 1.
  rewrite get_ai_response_run.
  destruct (gateway_result _) as [[m | m | c m] | analysis]; try reflexivity.
  unfold ret, raise.
  destruct (json_loads (clean_analysis analysis)) as [data |]; [| reflexivity].
  now destruct (route handle_calendar w data user_input _) as [[e | reply] tr'].
Qed.

End CommandFailures.

(** X14. How [_process_command] answers when the model fails on the
    analysis: a request the provider rejects as too long is answered
    with the hint to use fewer emails or shorter content, a
    [ValueError] with its own text, and any other failure with the
    fixed sentence that the command could not be processed. The model
    is called once; no handler runs. *)
Theorem analysis_failure_replies :
  forall (json_loads : string -> option CalendarAgent.analysis_data)
         (handle_calendar : CalendarAgent.analysis_data -> Eff.M string)
         (w : Eff.world) (now : Datetime.datetime) (user_input : string)
         (tr : list Eff.event) (e : Py.exn),
    let prompt := CalendarAgent.analysis_prompt (Datetime.strftime_date now) user_input in
    Eff.chat_completion w prompt = inl e ->
    CalendarAgent._process_command json_loads handle_calendar w now user_input tr
    = (inr (match e with
            | Py.ValueError msg => "I encountered an error analyzing your request: " ++ msg
            | Py.BadRequestError msg =>
                if PyStr.contains "context_length_exceeded" msg
                then "I encountered an error analyzing your request: The content is too long for the AI model to process. Please try with fewer emails or shorter content."
                else "I encountered an error processing your command."
            | Py.OtherException _ _ => "I encountered an error processing your command."
            end),
       (tr ++ [ Eff.ChatCompletion prompt ])%list).
Proof.
  intros json_loads handle_calendar w now user_input tr e prompt Hfail. subst prompt.
  rewrite process_command_unfold. cbv zeta. rewrite Hfail.
  destruct e as [m | m | c m]; simpl; try reflexivity.
  now destruct (PyStr.contains "context_length_exceeded" m).
Qed.

Lemma analysis_failure_replies_witness :
  fst (Eff.run (CalendarAgent._process_command (fun _ => None) (fun _ => Eff.ret "")
                  overloaded_world midday "Summarize my last 500 emails"))
  = inr "I encountered an error analyzing your request: The content is too long for the AI model to process. Please try with fewer emails or shorter content.".
Proof.
  unfold Eff.run.
  rewrite (analysis_failure_replies (fun _ => None) (fun _ => Eff.ret "") overloaded_world
             midday "Summarize my last 500 emails" []
             (Py.BadRequestError "Error code: 400 - context_length_exceeded") eq_refl).
  reflexivity.
Defined.

(** X15. A request outside both domains is a general question: when the
    parsed intent contains no keyword of the email set and none of the
    calendar set, [_process_command] asks the model the user's own
    words and answers with the model's text, or with the request to
    rephrase when that second call fails. Exactly two calls are made,
    the analysis and the question. *)
Theorem general_question_is_answered_by_the_model :
  forall (json_loads : string -> option CalendarAgent.analysis_data)
         (handle_calendar : CalendarAgent.analysis_data -> Eff.M string)
         (w : Eff.world) (now : Datetime.datetime) (user_input analysis raw : string)
         (data : CalendarAgent.analysis_data) (tr : list Eff.event),
    let prompt := CalendarAgent.analysis_prompt (Datetime.strftime_date now) user_input in
    gateway_result (Eff.chat_completion w prompt) = inr analysis ->
    json_loads (CalendarAgent.clean_analysis analysis) = Some data ->
    CalendarAgent.ad_intent data = Some raw ->
    CalendarAgent.select_domain (PyStr.lower raw) = CalendarAgent.GeneralQuestion ->
    CalendarAgent._process_command json_loads handle_calendar w now user_input tr
    = (inr (match gateway_result (Eff.chat_completion w user_input) with
            | inr text => text
            | inl _ => CalendarAgent.rephrase_reply
            end),
       (tr ++ [ Eff.ChatCompletion prompt; Eff.ChatCompletion user_input ])%list).
Proof.
  intros json_loads handle_calendar w now user_input analysis raw data tr prompt
    Hanswer Hparse Hraw Hdomain. subst prompt.
  rewrite process_command_unfold. cbv zeta. rewrite Hanswer, Hparse.
  rewrite (route_unfold handle_calendar w data raw user_input _ Hraw), Hdomain.
  rewrite get_ai_response_run, <- app_assoc.
  now destruct (gateway_result (Eff.chat_completion w user_input)).
Qed.

Lemma general_question_is_answered_by_the_model_witness :
  Eff.run (CalendarAgent._process_command (fun _ => Some joke_intent) (fun _ => Eff.ret "")
             declining_world midday "Tell me a joke")
  = (inr "This email looks appropriate to send.",
     [ Eff.ChatCompletion
         (CalendarAgent.analysis_prompt (Datetime.strftime_date midday) "Tell me a joke");
       Eff.ChatCompletion "Tell me a joke" ]).
Proof.
  exact (general_question_is_answered_by_the_model
           (fun _ => Some joke_intent) (fun _ => Eff.ret "") declining_world midday
           "Tell me a joke" "This email looks appropriate to send." "Tell a joke"
           joke_intent [] eq_refl eq_refl eq_refl eq_refl).
Defined.


(* ===================================================================== *)
(** * The bounds of a calendar request *)
(* ===================================================================== *)

Section RequestBounds.

Import PyStr CalendarRequests.

#[local] Arguments String.append !_ _ : simpl nomatch.

Lemma contains_append_r (p a b : string) :
  contains p b = true -> contains p (a ++ b) = true.
Proof.
  intros Hb. induction a as [| c a IH]; simpl; [exact Hb |].
  rewrite IH. apply orb_true_r.
Qed.

Lemma all_chars_append (p : ascii -> bool) (a b : string) :
  all_chars p (a ++ b) = all_chars p a && all_chars p b.
Proof.
  induction a as [| c a IH]; simpl; [reflexivity |]. now rewrite IH, andb_assoc.
Qed.

Lemma contains_char_absent (p : ascii -> bool) (c : ascii) (s : string) :
  all_chars p s = true -> p c = false -> contains (String c "") s = false.
Proof.
  intros Hall Hc. induction s as [| x s IH]; simpl in *; [reflexivity |].
  apply andb_prop in Hall as [Hx Hs]. rewrite (IH Hs), orb_false_r.
  unfold startswith. simpl. destruct (ascii_dec c x) as [-> | _]; [congruence | reflexivity].
Qed.

Lemma uint_digits (d : Decimal.uint) :
  all_chars date_char (NilEmpty.string_of_uint d) = true.
Proof. induction d; simpl; auto. Qed.

Lemma of_Z_digits (n : Z) : all_chars date_char (of_Z n) = true.
Proof.
  unfold of_Z, NilZero.string_of_int, NilZero.string_of_uint.
  destruct (Z.to_int n) as [d | d]; destruct d; simpl; auto using uint_digits.
Qed.

Lemma zeros_digits (n : nat) : all_chars date_char (zeros n) = true.
Proof. induction n; simpl; auto. Qed.

Lemma pad_digits (w : nat) (n : Z) : all_chars date_char (pad w n) = true.
Proof.
  unfold pad. now rewrite all_chars_append, zeros_digits, of_Z_digits.
Qed.

Lemma strftime_date_digits (t : Datetime.datetime) :
  all_chars date_char (Datetime.strftime_date t) = true.
Proof.
  unfold Datetime.strftime_date.
  destruct (Datetime.civil_from_days _) as [[y m] d].
  now rewrite !all_chars_append, !pad_digits.
Qed.

(** A date written by [strftime_date] has no time part and is not empty. *)
Lemma strftime_date_plain (t : Datetime.datetime) :
  contains "T" (Datetime.strftime_date t) = false
  /\ String.eqb (Datetime.strftime_date t) "" = false.
Proof.
  split.
  - apply (contains_char_absent date_char); [apply strftime_date_digits | reflexivity].
  - unfold Datetime.strftime_date.
    destruct (Datetime.civil_from_days _) as [[y m] d].
    now destruct (pad 4 y).
Qed.

Lemma rfc3339_start_timed (date : string) : contains "T" (rfc3339_start date) = true.
Proof.
  unfold rfc3339_start. destruct (contains "T" date) eqn:E; simpl; [exact E |].
  now apply contains_append_r.
Qed.

Lemma rfc3339_end_timed (date : string) : contains "T" (rfc3339_end date) = true.
Proof.
  unfold rfc3339_end. destruct (contains "T" date) eqn:E; simpl; [exact E |].
  now apply contains_append_r.
Qed.

End RequestBounds.


(** X18. The window of a listing without dates: when the entities carry
    neither a start nor an end date, the [list] branch asks for the
    events from 00:00:00 of the current day to 23:59:59 of the seventh
    day after it, a window of eight calendar days. *)
Theorem default_listing_window :
  forall (now : Datetime.datetime) (found : gmap string Py.value),
    found !! "start_date" = None ->
    found !! "end_date" = None ->
    let today := Datetime.strftime_date now in
    let last := Datetime.strftime_date (now + Datetime.timedelta_days 7) in
    fst (CalendarAgent.list_events_arguments now found) = (Py.VStr today, Py.VStr last)
    /\ CalendarRequests.list_events_bounds (Some today) (Some last)
       = (Some (today ++ "T00:00:00Z"), Some (last ++ "T23:59:59Z")).
Proof.
  intros now found Hstart Hend today last. subst today last. split.
  - unfold CalendarAgent.list_events_arguments, Py.get. now rewrite Hstart, Hend.
  - unfold CalendarRequests.list_events_bounds, CalendarRequests.when_given,
      CalendarRequests.rfc3339_start, CalendarRequests.rfc3339_end.
    destruct (strftime_date_plain now) as [-> ->].
    destruct (strftime_date_plain (now + Datetime.timedelta_days 7)) as [-> ->].
    reflexivity.
Qed.

Lemma default_listing_window_witness :
  CalendarRequests.list_events_bounds
    (Some (Datetime.strftime_date midday))
    (Some (Datetime.strftime_date (midday + Datetime.timedelta_days 7)))
  = (Some "2024-01-15T00:00:00Z", Some "2024-01-22T23:59:59Z").
Proof.
  rewrite (proj2 (default_listing_window midday ∅ (lookup_empty _) (lookup_empty _))).
  vm_compute. reflexivity.
Defined.


(* ===================================================================== *)
(** * The interactive loop *)
(* ===================================================================== *)

Section SessionLoop.

Import Py Eff Models Session.

Variable cls : Message_class.
Variable json_loads : string -> option CalendarAgent.analysis_data.
Variable handle_calendar : CalendarAgent.analysis_data -> M string.
Variable w : world.

Lemma run_loop_ended (st : state) (typed : list (Datetime.datetime * string)) :
  ended st = true -> run_loop cls json_loads handle_calendar w st typed = st.
Proof. intros Hend. destruct typed as [| [now line] rest]; simpl; [| rewrite Hend]; reflexivity. Qed.

Lemma run_loop_app (typed1 typed2 : list (Datetime.datetime * string)) (st : state) :
  run_loop cls json_loads handle_calendar w st (typed1 ++ typed2)
  = run_loop cls json_loads handle_calendar w
      (run_loop cls json_loads handle_calendar w st typed1) typed2.
Proof.
  revert st. induction typed1 as [| [now line] typed1 IH]; intros st; simpl; [reflexivity |].
  destruct (ended st) eqn:Hend; [| apply IH].
  now rewrite run_loop_ended.
Qed.

Lemma process_command_returns (now : Datetime.datetime) (user_input : string)
  (tr : list event) :
  exists reply tr',
    CalendarAgent._process_command json_loads handle_calendar w now user_input tr
    = (inr reply, tr').
Proof.
  unfold CalendarAgent._process_command, catch, ret.
  destruct (bind _ _ tr) as [[e | reply] tr']; eauto.
Qed.

Lemma add_message_appends (h : ConversationHistory) (role content : string) :
  1 <= max_history h ->
  Z.of_nat (List.length (messages h)) <= max_history h ->
  exists kept,
    messages (add_message cls h role content)
    = (kept ++ [new_Message cls role content None])%list.
Proof.
  intros Hmax Hinv.
  destruct (Z.eq_dec (Z.of_nat (List.length (messages h))) (max_history h)) as [Hfull | Hroom].
  - destruct (messages h) as [| oldest rest] eqn:Em; [simpl in Hfull; lia |].
    exists rest. apply add_message_full with (oldest := oldest); [exact Em |].
    now rewrite Em.
  - exists (messages h). apply add_message_below. lia.
Qed.

Lemma add_two_messages (h : ConversationHistory) (r1 c1 r2 c2 : string) :
  2 <= max_history h ->
  Z.of_nat (List.length (messages h)) <= max_history h ->
  exists kept,
    messages (add_message cls (add_message cls h r1 c1) r2 c2)
    = (kept ++ [new_Message cls r1 c1 None; new_Message cls r2 c2 None])%list.
Proof.
  intros Hmax Hinv.
  destruct (add_message_appends h r1 c1 ltac:(lia) Hinv) as (kept & Hfirst).
  pose proof (add_message_bounded cls h r1 c1 Hinv) as Hinv1.
  pose proof (add_message_max_history cls h r1 c1) as Hmax1.
  set (h1 := add_message cls h r1 c1) in *.
  destruct (Z.eq_dec (Z.of_nat (List.length (messages h1))) (max_history h1)) as [Hfull | Hroom].
  - destruct kept as [| oldest kept'].
    + rewrite Hfirst in Hfull. simpl in Hfull. lia.
    + exists kept'.
      rewrite (add_message_full cls h1 r2 c2 oldest (kept' ++ [new_Message cls r1 c1 None]));
        [now rewrite <- app_assoc | now rewrite Hfirst | exact Hfull].
  - exists kept. rewrite add_message_below by lia. now rewrite Hfirst, <- app_assoc.
Qed.

End SessionLoop.

(** X19. The word [exit], in any mix of upper and lower case, ends the
    session: the conversation is left as it was, nothing typed after it
    is read, and no later line reaches the model or the backend. *)
Theorem exit_ends_the_session :
  forall (cls : Models.Message_class)
         (json_loads : string -> option CalendarAgent.analysis_data)
         (handle_calendar : CalendarAgent.analysis_data -> Eff.M string)
         (w : Eff.world) (st : Session.state)
         (before after : list (Datetime.datetime * string))
         (now : Datetime.datetime) (line : string),
    PyStr.lower line = "exit" ->
    let run := Session.run_loop cls json_loads handle_calendar w st in
    run (before ++ (now, line) :: after)%list = run (before ++ [(now, line)])%list
    /\ Session.ended (run (before ++ [(now, line)])%list) = true
    /\ Session.conversation (run (before ++ [(now, line)])%list)
       = Session.conversation (run before).
Proof.
  intros cls json_loads handle_calendar w st before after now line Hexit run. subst run.
  assert (Hlast : forall s,
            Session.ended (Session.run_loop cls json_loads handle_calendar w s [(now, line)])
            = true
            /\ Session.conversation
                 (Session.run_loop cls json_loads handle_calendar w s [(now, line)])
               = Session.conversation s).
  { intros s. simpl. destruct (Session.ended s) eqn:Hend; [auto |].
    unfold Session.turn. rewrite Hexit. auto. }
  rewrite !run_loop_app. destruct (Hlast (Session.run_loop cls json_loads handle_calendar w st before))
    as [Hend Hconv].
  split; [| split; assumption].
  change ((now, line) :: after) with ([(now, line)] ++ after)%list.
  rewrite run_loop_app. now apply run_loop_ended.
Qed.

Lemma exit_ends_the_session_witness :
  Session.run_loop (Models.define_Message 0) (fun _ => None) (fun _ => Eff.ret "")
    declining_world Session.start [ (midday, "EXIT"); (midday, "Summarize my emails") ]
  = Session.run_loop (Models.define_Message 0) (fun _ => None) (fun _ => Eff.ret "")
      declining_world Session.start [ (midday, "EXIT") ].
Proof.
  exact (proj1 (exit_ends_the_session (Models.define_Message 0) (fun _ => None)
                  (fun _ => Eff.ret "") declining_world Session.start []
                  [ (midday, "Summarize my emails") ] midday "EXIT" eq_refl)).
Defined.



(* ===================================================================== *)
(** * Creating an event *)
(* ===================================================================== *)



(* ===================================================================== *)
(** * The email handler: classification inside the handler *)
(* ===================================================================== *)

Section HandlerClassification.

Import Py Eff CalendarAgent.

Lemma lower_char_idempotent (c : ascii) :
  PyStr.lower_char (PyStr.lower_char c) = PyStr.lower_char c.
Proof.
  unfold PyStr.lower_char.
  destruct ((65 <=? N_of_ascii c)%N && (N_of_ascii c <=? 90)%N) eqn:Eupper.
  - apply andb_prop in Eupper as [Hlo%N.leb_le Hhi%N.leb_le].
    rewrite N_ascii_embedding by lia.
    destruct ((65 <=? N_of_ascii c + 32)%N && (N_of_ascii c + 32 <=? 90)%N) eqn:E;
      [| reflexivity].
    apply andb_prop in E as [_ H%N.leb_le]. lia.
  - now rewrite Eupper.
Qed.

Lemma lower_idempotent (s : string) : PyStr.lower (PyStr.lower s) = PyStr.lower s.
Proof.
  induction s as [| c s IH]; simpl; [reflexivity |].
  now rewrite lower_char_idempotent, IH.
Qed.

Lemma detect_intent_by_lower (categories : list (string * category_info))
  (intent1 intent2 : string) (params found : gmap string value) :
  PyStr.lower intent1 = PyStr.lower intent2 ->
  detect_intent categories intent1 params found
  = detect_intent categories intent2 params found.
Proof.
  intros Hlow. induction categories as [| [c info] rest IH]; simpl; [reflexivity |].
  unfold indicator_hit. now rewrite Hlow, IH.
Qed.

End HandlerClassification.

(** X22. Classification does not depend on letter case: two intents
    with the same lower-case form are classified alike by both
    classifiers, and lower-casing is idempotent, so the handler's own
    lower-casing before it calls the classifier changes nothing. *)
Theorem classification_ignores_case :
  forall (intent1 intent2 : string) (params : gmap string Py.value),
    PyStr.lower intent1 = PyStr.lower intent2 ->
    CalendarAgent._detect_gmail_intent intent1 params
    = CalendarAgent._detect_gmail_intent intent2 params
    /\ CalendarAgent._detect_calendar_intent intent1 params
       = CalendarAgent._detect_calendar_intent intent2 params
    /\ CalendarAgent._detect_gmail_intent (PyStr.lower intent1) params
       = CalendarAgent._detect_gmail_intent intent1 params
    /\ CalendarAgent._detect_calendar_intent (PyStr.lower intent1) params
       = CalendarAgent._detect_calendar_intent intent1 params.
Proof.
  intros intent1 intent2 params Hlow.
  unfold CalendarAgent._detect_gmail_intent, CalendarAgent._detect_calendar_intent.
  repeat split; apply detect_intent_by_lower; auto using lower_idempotent.
Qed.

Lemma classification_ignores_case_witness :
  CalendarAgent._detect_calendar_intent "SCHEDULE a Meeting" ∅
  = CalendarAgent._detect_calendar_intent "schedule a meeting" ∅.
Proof.
  exact (proj1 (proj2 (classification_ignores_case "SCHEDULE a Meeting" "schedule a meeting"
                         ∅ eq_refl))).
Defined.

(** X23. An email request that cannot be classified costs no call: when
    the analysis has its intent and parameters but the classifier
    returns no category (no indicator occurs, or the first category hit
    misses a required entity), [_handle_gmail_action] answers with the
    unclear-intent message and calls neither the model nor the backend;
    when the analysis has no ["parameters"] key, it answers with the
    error text naming the key. *)
Theorem unclassified_email_request_costs_no_call :
  forall (w : Eff.world) (data : CalendarAgent.analysis_data) (tr : list Eff.event),
    (forall raw params,
        CalendarAgent.ad_intent data = Some raw ->
        CalendarAgent.ad_parameters data = Some params ->
        CalendarAgent._detect_gmail_intent raw params = None ->
        CalendarAgent._handle_gmail_action w data tr
        = (inr CalendarAgent.unclear_email_intent, tr))
    /\ (CalendarAgent.ad_parameters data = None ->
        CalendarAgent._handle_gmail_action w data tr
        = (inr "I encountered an error while processing your email request: 'parameters'",
           tr)).
Proof.
  intros w data tr. split.
  - intros raw params Hraw Hparams Hnone.
    unfold CalendarAgent._handle_gmail_action, Eff.catch, Eff.bind, Eff.lift,
      CalendarAgent.key_params, CalendarAgent.key.
    rewrite Hparams, Hraw.
    unfold CalendarAgent._detect_gmail_intent in *.
    rewrite (detect_intent_by_lower CalendarAgent.gmail_intent_categories
               (PyStr.lower raw) raw params ∅ (lower_idempotent raw)), Hnone.
    reflexivity.
  - intros Hparams.
    unfold CalendarAgent._handle_gmail_action, Eff.catch, Eff.bind, Eff.lift,
      CalendarAgent.key_params.
    rewrite Hparams. reflexivity.
Qed.

Lemma unclassified_email_request_costs_no_call_witness :
  Eff.run (CalendarAgent._handle_gmail_action declining_world
             {| CalendarAgent.ad_intent := Some "Forward it to the team";
                CalendarAgent.ad_parameters := Some ∅ |})
  = (inr CalendarAgent.unclear_email_intent, []).
Proof.
  apply (proj1 (unclassified_email_request_costs_no_call declining_world
                  {| CalendarAgent.ad_intent := Some "Forward it to the team";
                     CalendarAgent.ad_parameters := Some ∅ |} [])
           "Forward it to the team" ∅);
    [reflexivity | reflexivity | vm_compute; reflexivity].
Defined.

(* ===================================================================== *)
(** * The free-slot search: how many slots, and where *)
(* ===================================================================== *)

Section SlotCount.

Import Datetime CalendarTools.

Lemma slot_before_at_most_one (cursor limit : datetime) (d : Z) :
  (List.length (slot_before cursor limit d) <= 1)%nat.
Proof.
  unfold slot_before. destruct (_ <=? _); [| simpl; lia].
  destruct (_ <=? _); simpl; lia.
Qed.

Lemma scan_events_slot_count (start_time : datetime) (d : Z) (events : list Event) :
  (List.length (snd (scan_events start_time events d)) <= List.length events)%nat.
Proof.
  induction events as [| ev events IH] using rev_ind; [simpl; lia |].
  rewrite scan_events_slots_snoc, !length_app. simpl.
  pose proof (slot_before_at_most_one (fst (scan_events start_time events d))
                (event_start ev) d). lia.
Qed.

Lemma cursor_before_origin (start_time : datetime) (events : list Event) (d : Z) (i : nat) :
  (i <= List.length events)%nat ->
  cursor_before start_time events d i = start_time
  \/ exists ev, In ev events /\ cursor_before start_time events d i = event_end ev.
Proof.
  intros Hi. destruct i as [| i]; [left; reflexivity | right].
  destruct (lookup_lt_is_Some_2 events i ltac:(lia)) as [ev Hev].
  exists ev. split; [| now apply cursor_before_succ].
  apply list_elem_of_In, list_elem_of_lookup. eauto.
Qed.

End SlotCount.

(** X24. The search offers one slot per gap, not every slot that fits:
    it returns at most one slot more than there are events, and each
    slot starts at the start of the range or at the end of an event. On
    a day without events it returns the single slot at the start of the
    range when the duration fits into the range, and nothing
    otherwise. *)
Theorem free_slots_one_per_gap :
  forall (start_time end_time : Datetime.datetime) (events : list CalendarTools.Event)
         (duration_minutes : Z),
    (List.length (CalendarTools.free_slots start_time end_time events duration_minutes)
     <= List.length events + 1)%nat
    /\ (forall s,
          In s (CalendarTools.free_slots start_time end_time events duration_minutes) ->
          CalendarTools.slot_start s = start_time
          \/ exists ev, In ev events
                        /\ CalendarTools.slot_start s = CalendarTools.event_end ev)
    /\ CalendarTools.free_slots start_time end_time [] duration_minutes
       = if start_time + Datetime.timedelta_minutes duration_minutes <=? end_time
         then [ {| CalendarTools.slot_start := start_time;
                   CalendarTools.slot_end :=
                     start_time + Datetime.timedelta_minutes duration_minutes |} ]
         else [].
Proof.
  intros start_time end_time events d. split; [| split].
  - unfold CalendarTools.free_slots.
    pose proof (scan_events_slot_count start_time d events) as Hcount.
    destruct (CalendarTools.scan_events start_time events d) as [cursor slots].
    rewrite length_app. simpl in Hcount.
    pose proof (slot_before_at_most_one cursor end_time d). lia.
  - intros s [(i & ev & Hi & Hstart & _) | (Hstart & _)]%free_slots_spec; rewrite Hstart.
    + apply cursor_before_origin. apply lookup_lt_Some in Hi. lia.
    + now apply cursor_before_origin.
  - unfold CalendarTools.free_slots, CalendarTools.scan_events,
      CalendarTools.slot_before, Datetime.timedelta_minutes, Datetime.usec_per_minute,
      Datetime.usec_per_second.
    simpl.
    destruct (Z.leb_spec (d * 60 * 1000000) (end_time - start_time));
      destruct (Z.leb_spec (start_time + d * (60 * 1000000)) end_time);
      try reflexivity; lia.
Qed.

(* ===================================================================== *)
(** * The conversation store at and beyond its capacity *)
(* ===================================================================== *)

(** X25. A history that is full or over-full keeps its length: when the
    number of stored messages is at least [max_history], [add_message]
    drops the first message of the extended list and the length is
    unchanged, so a history created beyond its capacity never shrinks
    to it, and with a capacity of zero or less an empty history stays
    empty. *)
Theorem full_history_keeps_its_length :
  forall (cls : Models.Message_class) (h : Models.ConversationHistory)
         (role content : string),
    Models.max_history h <= Z.of_nat (List.length (Models.messages h)) ->
    Models.messages (Models.add_message cls h role content)
    = tl (Models.messages h ++ [ Models.new_Message cls role content None ])%list
    /\ List.length (Models.messages (Models.add_message cls h role content))
       = List.length (Models.messages h)
    /\ (Models.messages h = [] -> Models.messages (Models.add_message cls h role content) = []).
Proof.
  intros cls h role content Hfull.
  assert (Hm : Models.messages (Models.add_message cls h role content)
               = tl (Models.messages h ++ [ Models.new_Message cls role content None ])%list).
  { rewrite add_message_messages. cbv zeta. rewrite length_app. simpl.
    destruct (Z.gtb_spec (Z.of_nat (List.length (Models.messages h) + 1))
                (Models.max_history h)); [reflexivity | lia]. }
  rewrite Hm. split; [reflexivity |]. split.
  - destruct (Models.messages h); simpl; [reflexivity |]. rewrite length_app. simpl. lia.
  - intros ->. reflexivity.
Qed.

Lemma full_history_keeps_its_length_witness :
  Models.messages
    (Models.add_message (Models.define_Message 0)
       {| Models.messages := []; Models.max_history := 0 |} "user" "hello")
  = [].
Proof.
  apply (proj2 (proj2 (full_history_keeps_its_length (Models.define_Message 0)
                         {| Models.messages := []; Models.max_history := 0 |}
                         "user" "hello" ltac:(vm_compute; discriminate)))).
  reflexivity.
Defined.
